(** * Talos control-plane provider: client resolution (controllers/configs.go)

    A shallow embedding of [kubeconfigForCluster], [talosconfigForMachines]
    and [talosconfigFromWorkloadCluster], followed by the properties of the
    design document that concern them.

    The functions talk to three collaborators: the management-cluster store
    ([r.Client]), the workload cluster ([clientset.CoreV1().Nodes()]) and the
    client libraries ([clientcmd], [kubernetes], [talosconfig],
    [talosclient]).  Their answers are given by a [World]; every call is
    recorded in a trace, in program order, so that statements about what is
    called, and in which order, can be made. *)

From Stdlib Require Import ZArith.
From stdpp Require Import base option list strings gmap.

(** ** Data model *)

(** [time.Duration]: a count of nanoseconds. *)
Module time.
Definition Duration := Z.
Definition Nanosecond : Duration := 1%Z.
Definition Microsecond : Duration := (1000 * Nanosecond)%Z.
Definition Millisecond : Duration := (1000 * Microsecond)%Z.
Definition Second : Duration := (1000 * Millisecond)%Z.
End time.

(** [net.Dialer], restricted to the two fields the source sets, and the
    [connrotation.Dialer] wrapped around it. *)
Module net.
Record Dialer := { Timeout : time.Duration; KeepAlive : time.Duration }.
End net.

Module connrotation.
Record Dialer := { dial : net.Dialer }.
Definition NewDialer (d : net.Dialer) : Dialer := {| dial := d |}.
End connrotation.

Module types.
Record NamespacedName := { Namespace : string; Name : string }.
End types.

Module metav1.
Record OwnerReference := { Kind : string; Name : string }.
End metav1.

(** [corev1]: secrets and nodes.  A [[]byte] is a list of bytes, the nil
    slice being the empty list; [Data] is a Go map. *)
Module corev1.
Record Secret := { Data : gmap string (list Byte.byte) }.

Definition NodeAddressType := string.
Definition NodeExternalIP : NodeAddressType := "ExternalIP".
Definition NodeInternalIP : NodeAddressType := "InternalIP".
Record NodeAddress := { Type_ : NodeAddressType; Address : string }.
Record Node := { Name : string; Addresses : list NodeAddress }.
End corev1.

(** [clusterv1]: machines, with the part of their status that is read. *)
Module clusterv1.
Definition MachineAddressType := string.
Definition MachineExternalIP : MachineAddressType := "ExternalIP".
Definition MachineInternalIP : MachineAddressType := "InternalIP".
Record MachineAddress := { Type_ : MachineAddressType; Address : string }.
Record ObjectReference := { Name : string }.
Record Machine := {
  Namespace : string;
  Name_ : string;
  Addresses : list MachineAddress;          (* Status.Addresses *)
  NodeRef : option ObjectReference          (* Status.NodeRef, nil = None *)
}.
End clusterv1.

(** [cabptv1.TalosConfig]: the credential record. *)
Module cabptv1.
Record TalosConfig := {
  Name : string;
  OwnerReferences : list metav1.OwnerReference;
  TalosConfig_ : string                     (* Status.TalosConfig *)
}.
End cabptv1.

(** [rest.Config]: what the kubeconfig was parsed into, and the dial
    function installed afterwards. *)
Module rest.
Record Config := { Host : string; Dial : option connrotation.Dialer }.
Definition withDial (c : Config) (d : connrotation.Dialer) : Config :=
  {| Host := Host c; Dial := Some d |}.
End rest.

Module kubernetes.
Record Clientset := { config : rest.Config }.
End kubernetes.

Module talosconfig.
Record Config := { Context : string }.
End talosconfig.

(** [talosclient.Client]: the administrative client, as configured by
    [WithEndpoints] and [WithConfig]. *)
Module talosclient.
Record Client := {
  Endpoints : list string;
  Config : option talosconfig.Config
}.
End talosclient.

(** ** Errors and results *)

(** Errors of the collaborators; they are passed on unchanged. *)
Inductive ExtError :=
| NotFound (what : string)
| OtherError (msg : string).

(** The errors a resolver call can return: the four made with
    [fmt.Errorf] in the source, and those of the collaborators. *)
Inductive error :=
| ErrNoMachines                          (* at least one machine should be provided *)
| ErrNoAddresses (node : string)         (* no addresses were found for node %q *)
| ErrNoNodeRef (machine : string)        (* %q machine does not have a nodeRef *)
| ErrTalosConfigNotFound (machine : string)  (* failed to find TalosConfig for %q *)
| ErrExternal (e : ExtError).

Inductive result (A : Type) :=
| Ok (a : A)
| Err (e : error).
Arguments Ok {A} a.
Arguments Err {A} e.

(** ** The world and the trace of calls *)

Inductive Event :=
| EvClientGet (key : types.NamespacedName)
| EvRESTConfigFromKubeConfig (data : list Byte.byte)
| EvNewDialer (d : connrotation.Dialer)
| EvNewForConfig (cfg : rest.Config)
| EvNodesGet (name : string)
| EvClientList (namespace : string)
| EvFromString (s : string)
| EvTalosClientNew (endpoints : list string) (t : option talosconfig.Config)
| EvCloseAll (d : connrotation.Dialer).

(** The answers of the collaborators during one resolver call. *)
Record World := {
  Client_Get : types.NamespacedName -> ExtError + corev1.Secret;
  Client_List : string -> ExtError + list cabptv1.TalosConfig;
  RESTConfigFromKubeConfig : list Byte.byte -> ExtError + rest.Config;
  NewForConfig : rest.Config -> option ExtError;
  Nodes_Get : kubernetes.Clientset -> string -> ExtError + corev1.Node;
  FromString : string -> ExtError + talosconfig.Config;
  talosclient_New : list string -> option talosconfig.Config -> option ExtError
}.

(** Calls that leave the process: reads of the management-cluster store
    and of the workload cluster. *)
Definition is_network_call (e : Event) : bool :=
  match e with
  | EvClientGet _ | EvClientList _ | EvNodesGet _ => true
  | _ => false
  end.

Definition is_close (e : Event) : bool :=
  match e with
  | EvCloseAll _ => true
  | _ => false
  end.

(** ** A small monad: a result together with the calls made *)

Definition M (A : Type) : Type := list Event * result A.

Definition ret {A} (a : A) : M A := ([], Ok a).
Definition fail {A} (e : error) : M A := ([], Err e).
Definition bind {A B} (m : M A) (f : A -> M B) : M B :=
  match m with
  | (tr, Ok a) => let '(tr', r) := f a in (tr ++ tr', r)
  | (tr, Err e) => (tr, Err e)
  end.
Definition tell (ev : Event) : M unit := ([ev], Ok tt).

(** A call to a collaborator: logged, its error wrapped. *)
Definition call {A} (ev : Event) (r : ExtError + A) : M A :=
  match r with
  | inr a => ([ev], Ok a)
  | inl e => ([ev], Err (ErrExternal e))
  end.

Declare Scope go_scope.
Delimit Scope go_scope with go.
Notation "x <- m ;; k" := (bind m (fun x => k))
  (at level 100, m at next level, right associativity) : go_scope.
Notation "m ;;; k" := (bind m (fun _ => k))
  (at level 100, right associativity) : go_scope.
Open Scope go_scope.

Definition trace {A} (m : M A) : list Event := fst m.
Definition outcome {A} (m : M A) : result A := snd m.

(** ** Workload-cluster access *)

Record kubernetesClient := {
  Clientset : kubernetes.Clientset;
  dialer : connrotation.Dialer
}.

(** [func (k *kubernetesClient) Close() error] *)
Definition Close (k : kubernetesClient) : M unit :=
  tell (EvCloseAll (dialer k)).

(** [func newDialer() *connrotation.Dialer] *)
Definition newDialer : connrotation.Dialer :=
  connrotation.NewDialer
    {| net.Timeout := (30 * time.Second)%Z; net.KeepAlive := (30 * time.Second)%Z |}.

(** [kubeconfigSecret.Data["value"]]: a missing key reads as the nil slice. *)
Definition mapIndex (m : gmap string (list Byte.byte)) (k : string) : list Byte.byte :=
  default [] (m !! k).

(** [func (r *TalosControlPlaneReconciler) kubeconfigForCluster] *)
Definition kubeconfigForCluster (w : World) (cluster : types.NamespacedName)
  : M kubernetesClient :=
  let key := {| types.Namespace := types.Namespace cluster;
                types.Name := types.Name cluster +:+ "-kubeconfig" |} in
  kubeconfigSecret <- call (EvClientGet key) (Client_Get w key) ;;
  let data := mapIndex (corev1.Data kubeconfigSecret) "value" in
  config <- call (EvRESTConfigFromKubeConfig data) (RESTConfigFromKubeConfig w data) ;;
  let dialer := newDialer in
  tell (EvNewDialer dialer) ;;;
  let config := rest.withDial config dialer in
  call (EvNewForConfig config)
       (match NewForConfig w config with Some e => inl e | None => inr tt end) ;;;
  ret {| Clientset := {| kubernetes.config := config |}; dialer := dialer |}.

(** ** Credential lookup: the scan of the listed TalosConfig records *)

(** The test of the inner loop, [ref.Kind == "Machine" && ref.Name == machine.Name]. *)
Definition refMatches (machineName : string) (ref : metav1.OwnerReference) : bool :=
  String.eqb (metav1.Kind ref) "Machine" && String.eqb (metav1.Name ref) machineName.

(** The inner loop [for _, ref := range cfg.OwnerReferences]: whether it
    reaches its [break]. *)
Fixpoint refsMatch (machineName : string) (refs : list metav1.OwnerReference) : bool :=
  match refs with
  | [] => false
  | ref :: refs' =>
      if refMatches machineName ref then true else refsMatch machineName refs'
  end.

(** The scan of [talosconfigForMachines] (lines 117-125).  Its [break outer]
    leaves both loops at the first record with a matching reference; the
    loop variable [cfg], to which [found] points, is not assigned again. *)
Fixpoint scanBreakOuter (machineName : string) (cfgs : list cabptv1.TalosConfig)
  : option cabptv1.TalosConfig :=
  match cfgs with
  | [] => None
  | cfg :: rest =>
      if refsMatch machineName (cabptv1.OwnerReferences cfg) then Some cfg
      else scanBreakOuter machineName rest
  end.

(** The scope of the variable of a [for ... range] loop: one variable for
    the whole loop (Go before 1.22) or one per iteration (Go 1.22 and
    later).  The language version is set outside controllers/configs.go. *)
Inductive LoopVar := PerLoop | PerIteration.

(** The scan of [talosconfigFromWorkloadCluster] (lines 189-196).  Its
    [break] leaves the inner loop only, so every record is visited.
    [found] is [&cfg]: the argument [found] below is what that pointer
    points to ([None] for nil).  With one variable per loop, a non-nil
    [found] points to the loop variable and so sees each record the loop
    moves on to. *)
Fixpoint scanBreakInner (sem : LoopVar) (machineName : string)
    (cfgs : list cabptv1.TalosConfig) (found : option cabptv1.TalosConfig)
  : option cabptv1.TalosConfig :=
  match cfgs with
  | [] => found
  | cfg :: rest =>
      let found :=
        match sem, found with
        | PerLoop, Some _ => Some cfg
        | _, _ => found
        end in
      let found :=
        if refsMatch machineName (cabptv1.OwnerReferences cfg) then Some cfg
        else found in
      scanBreakInner sem machineName rest found
  end.

(** ** Address collection *)

Definition isMachineIP (addr : clusterv1.MachineAddress) : bool :=
  String.eqb (clusterv1.Type_ addr) clusterv1.MachineExternalIP
  || String.eqb (clusterv1.Type_ addr) clusterv1.MachineInternalIP.

Definition isNodeIP (addr : corev1.NodeAddress) : bool :=
  String.eqb (corev1.Type_ addr) corev1.NodeExternalIP
  || String.eqb (corev1.Type_ addr) corev1.NodeInternalIP.

(** [for _, addr := range machine.Status.Addresses { ... append ... }] *)
Definition appendMachineIPs (addrList : list string)
    (addrs : list clusterv1.MachineAddress) : list string :=
  fold_left
    (fun acc addr => if isMachineIP addr then acc ++ [clusterv1.Address addr] else acc)
    addrs addrList.

(** [for _, addr := range node.Status.Addresses { ... append ... }] *)
Definition appendNodeIPs (addrList : list string)
    (addrs : list corev1.NodeAddress) : list string :=
  fold_left
    (fun acc addr => if isNodeIP addr then acc ++ [corev1.Address addr] else acc)
    addrs addrList.

(** ** The resolver *)

(** [talosclient.New(ctx, WithEndpoints(addrList...), WithConfig(t))] *)
Definition talosclientNew (w : World) (addrList : list string)
    (t : option talosconfig.Config) : M talosclient.Client :=
  call (EvTalosClientNew addrList t)
       (match talosclient_New w addrList t with
        | Some e => inl e
        | None => inr {| talosclient.Endpoints := addrList; talosclient.Config := t |}
        end).

(** The body of [if t == nil { ... }] in [talosconfigForMachines]. *)
Definition findTalosConfig (w : World) (machine : clusterv1.Machine)
  : M talosconfig.Config :=
  cfgs <- call (EvClientList (clusterv1.Namespace machine))
               (Client_List w (clusterv1.Namespace machine)) ;;
  match scanBreakOuter (clusterv1.Name_ machine) cfgs with
  | None => fail (ErrTalosConfigNotFound (clusterv1.Name_ machine))
  | Some found =>
      call (EvFromString (cabptv1.TalosConfig_ found))
           (FromString w (cabptv1.TalosConfig_ found))
  end.

(** The body of [if t == nil { ... }] in [talosconfigFromWorkloadCluster]. *)
Definition findTalosConfigWorkload (sem : LoopVar) (w : World)
    (machine : clusterv1.Machine) : M talosconfig.Config :=
  cfgs <- call (EvClientList (clusterv1.Namespace machine))
               (Client_List w (clusterv1.Namespace machine)) ;;
  match scanBreakInner sem (clusterv1.Name_ machine) cfgs None with
  | None => fail (ErrTalosConfigNotFound (clusterv1.Name_ machine))
  | Some found =>
      call (EvFromString (cabptv1.TalosConfig_ found))
           (FromString w (cabptv1.TalosConfig_ found))
  end.

(** The loop [for _, machine := range machines] of [talosconfigForMachines],
    from the values [addrList] and [t] have when an iteration starts. *)
Fixpoint machinesLoop (w : World) (addrList : list string)
    (t : option talosconfig.Config) (machines : list clusterv1.Machine)
  : M (list string * option talosconfig.Config) :=
  match machines with
  | [] => ret (addrList, t)
  | machine :: rest =>
      let addrList := appendMachineIPs addrList (clusterv1.Addresses machine) in
      if Nat.eqb (length addrList) 0
      then fail (ErrNoAddresses (clusterv1.Name_ machine))
      else
        t <- match t with
             | None => c <- findTalosConfig w machine ;; ret (Some c)
             | Some _ => ret t
             end ;;
        machinesLoop w addrList t rest
  end.

(** The loop of [talosconfigFromWorkloadCluster]. *)
Fixpoint workloadLoop (sem : LoopVar) (w : World) (clientset : kubernetesClient)
    (addrList : list string) (t : option talosconfig.Config)
    (machines : list clusterv1.Machine)
  : M (list string * option talosconfig.Config) :=
  match machines with
  | [] => ret (addrList, t)
  | machine :: rest =>
      match clusterv1.NodeRef machine with
      | None => fail (ErrNoNodeRef (clusterv1.Name_ machine))
      | Some nodeRef =>
          node <- call (EvNodesGet (clusterv1.Name nodeRef))
                       (Nodes_Get w (Clientset clientset) (clusterv1.Name nodeRef)) ;;
          let addrList := appendNodeIPs addrList (corev1.Addresses node) in
          if Nat.eqb (length addrList) 0
          then fail (ErrNoAddresses (corev1.Name node))
          else
            t <- match t with
                 | None => c <- findTalosConfigWorkload sem w machine ;; ret (Some c)
                 | Some _ => ret t
                 end ;;
            workloadLoop sem w clientset addrList t rest
      end
  end.

(** [func (r *TalosControlPlaneReconciler) talosconfigFromWorkloadCluster] *)
Definition talosconfigFromWorkloadCluster (sem : LoopVar) (w : World)
    (cluster : types.NamespacedName) (machines : list clusterv1.Machine)
  : M talosclient.Client :=
  match machines with
  | [] => fail ErrNoMachines
  | _ :: _ =>
      clientset <- kubeconfigForCluster w cluster ;;
      st <- workloadLoop sem w clientset [] None machines ;;
      talosclientNew w st.1 st.2
  end.

(** The control-plane object.  The type of [Spec.ControlPlaneConfig.InitConfig]
    is declared in the bootstrap provider's API package; here it is a
    parameter, together with [reflect.ValueOf(_).IsZero()] on it. *)
Module controlplanev1.
Record TalosControlPlane (InitConfigT : Type) := {
  Namespace : string;
  Labels : gmap string string;
  InitConfig : InitConfigT
}.
Arguments Namespace {InitConfigT} _.
Arguments Labels {InitConfigT} _.
Arguments InitConfig {InitConfigT} _.
End controlplanev1.

(** [tcp.GetLabels()["cluster.x-k8s.io/cluster-name"]] *)
Definition clusterKey {T} (tcp : controlplanev1.TalosControlPlane T)
  : types.NamespacedName :=
  {| types.Namespace := controlplanev1.Namespace tcp;
     types.Name :=
       default "" (controlplanev1.Labels tcp !! "cluster.x-k8s.io/cluster-name") |}.

(** [func (r *TalosControlPlaneReconciler) talosconfigForMachines] *)
Definition talosconfigForMachines {InitConfigT : Type}
    (IsZero : InitConfigT -> bool) (sem : LoopVar) (w : World)
    (tcp : controlplanev1.TalosControlPlane InitConfigT)
    (machines : list clusterv1.Machine) : M talosclient.Client :=
  match machines with
  | [] => fail ErrNoMachines
  | _ :: _ =>
      if negb (IsZero (controlplanev1.InitConfig tcp))
      then talosconfigFromWorkloadCluster sem w (clusterKey tcp) machines
      else
        st <- machinesLoop w [] None machines ;;
        talosclientNew w st.1 st.2
  end.

(** ** Vocabulary of the properties *)

(** The secret read for a cluster. *)
Definition kubeconfigKey (cluster : types.NamespacedName) : types.NamespacedName :=
  {| types.Namespace := types.Namespace cluster;
     types.Name := types.Name cluster +:+ "-kubeconfig" |}.

(** A record is owned by a machine when one of its owner references has
    kind [Machine] and the machine's name. *)
Definition owned (machineName : string) (cfg : cabptv1.TalosConfig) : bool :=
  refsMatch machineName (cabptv1.OwnerReferences cfg).

(** What the two credential lookups do, once the scan is given: list the
    namespace, scan, parse the record the scan ends with. *)
Definition lookupWith (w : World) (machine : clusterv1.Machine)
    (scan : list cabptv1.TalosConfig -> option cabptv1.TalosConfig)
  : M talosconfig.Config :=
  let ns := clusterv1.Namespace machine in
  match Client_List w ns with
  | inl e => ([EvClientList ns], Err (ErrExternal e))
  | inr cfgs =>
      match scan cfgs with
      | None => ([EvClientList ns], Err (ErrTalosConfigNotFound (clusterv1.Name_ machine)))
      | Some found =>
          let s := cabptv1.TalosConfig_ found in
          match FromString w s with
          | inl e => ([EvClientList ns; EvFromString s], Err (ErrExternal e))
          | inr c => ([EvClientList ns; EvFromString s], Ok c)
          end
      end
  end.

(** The calls of the direct path: the list of the TalosConfig records, the
    parse of a talosconfig, the client constructor. *)
Definition is_direct_call (ev : Event) : bool :=
  match ev with
  | EvClientList _ | EvFromString _ | EvTalosClientNew _ _ => true
  | _ => false
  end.

(** The external and internal IP addresses of a machine, and of a node, in
    the order of the address records. *)
Definition machineIPs (machine : clusterv1.Machine) : list string :=
  map clusterv1.Address (List.filter isMachineIP (clusterv1.Addresses machine)).

Definition nodeIPs (node : corev1.Node) : list string :=
  map corev1.Address (List.filter isNodeIP (corev1.Addresses node)).

(** The direct path of [talosconfigForMachines]: what follows the mode
    test. *)
Definition directPath (w : World) (machines : list clusterv1.Machine)
  : M talosclient.Client :=
  st <- machinesLoop w [] None machines ;;
  talosclientNew w st.1 st.2.

(** The design document on direct mode: every non-empty machine list whose
    machines all have an external or internal IP address resolves to a
    client on exactly those addresses. *)
Definition direct_resolution_always_succeeds : Prop :=
  forall (T : Type) (IsZero : T -> bool) (sem : LoopVar) (w : World)
         (tcp : controlplanev1.TalosControlPlane T) (machines : list clusterv1.Machine),
    IsZero (controlplanev1.InitConfig tcp) = true ->
    machines <> [] ->
    Forall (fun m => machineIPs m <> []) machines ->
    exists client,
      outcome (talosconfigForMachines IsZero sem w tcp machines) = Ok client
      /\ talosclient.Endpoints client = concat (map machineIPs machines).

(** The design document on indirect mode: a machine without node
    reference anywhere in the list makes the call fail with the
    machine-not-joined error, no call to a store or cluster having been
    made. *)
Definition unjoined_fails_before_any_call : Prop :=
  forall (sem : LoopVar) (w : World) (cluster : types.NamespacedName)
         (machines : list clusterv1.Machine),
    (exists m, m ∈ machines /\ clusterv1.NodeRef m = None) ->
    let r := talosconfigFromWorkloadCluster sem w cluster machines in
    (exists name, outcome r = Err (ErrNoNodeRef name))
    /\ Forall (fun ev => is_network_call ev = false) (trace r).

(** The calls of the credential lookup. *)
Definition is_credential_call (ev : Event) : bool :=
  match ev with
  | EvClientList _ | EvFromString _ => true
  | _ => false
  end.

Definition is_nodes_get (ev : Event) : bool :=
  match ev with
  | EvNodesGet _ => true
  | _ => false
  end.

(** The names of the node references of the machines that have one, in
    machine order. *)
Definition nodeRefNames (machines : list clusterv1.Machine) : list string :=
  omap (fun m => option_map clusterv1.Name (clusterv1.NodeRef m)) machines.

(** A machine with another node reference, and with other address
    records. *)
Definition withNodeRef (nodeRef : option clusterv1.ObjectReference)
    (m : clusterv1.Machine) : clusterv1.Machine :=
  {| clusterv1.Namespace := clusterv1.Namespace m;
     clusterv1.Name_ := clusterv1.Name_ m;
     clusterv1.Addresses := clusterv1.Addresses m;
     clusterv1.NodeRef := nodeRef |}.

Definition withAddresses (addrs : list clusterv1.MachineAddress)
    (m : clusterv1.Machine) : clusterv1.Machine :=
  {| clusterv1.Namespace := clusterv1.Namespace m;
     clusterv1.Name_ := clusterv1.Name_ m;
     clusterv1.Addresses := addrs;
     clusterv1.NodeRef := clusterv1.NodeRef m |}.

(** ** A concrete world

    Cluster [demo] in namespace [ns1]: the secret [demo-kubeconfig] holds a
    kubeconfig under the key [value]; the workload cluster has the nodes
    [node-1] to [node-3]; the namespace holds TalosConfig records. *)
Module Demo.

Definition secrets : gmap (string * string) corev1.Secret :=
  {[ ("ns1", "demo-kubeconfig") :=
       {| corev1.Data := {[ "value" := [Byte.x7b; Byte.x7d] ]} |};
     ("ns1", "nokey-kubeconfig") :=
       {| corev1.Data := {[ "data" := [Byte.x7b; Byte.x7d] ]} |} ]}.

Definition nodes : gmap string corev1.Node :=
  {[ "node-1" := {| corev1.Name := "node-1";
                    corev1.Addresses :=
                      [ {| corev1.Type_ := "Hostname"; corev1.Address := "node-1" |};
                        {| corev1.Type_ := "InternalIP"; corev1.Address := "10.0.0.1" |} ] |};
     "node-2" := {| corev1.Name := "node-2";
                    corev1.Addresses :=
                      [ {| corev1.Type_ := "InternalIP"; corev1.Address := "10.0.0.2" |};
                        {| corev1.Type_ := "ExternalIP"; corev1.Address := "192.0.2.2" |} ] |};
     "node-3" := {| corev1.Name := "node-3";
                    corev1.Addresses :=
                      [ {| corev1.Type_ := "Hostname"; corev1.Address := "node-3" |} ] |} ]}.

Definition owner (kind name : string) : metav1.OwnerReference :=
  {| metav1.Kind := kind; metav1.Name := name |}.

Definition cfgA : cabptv1.TalosConfig :=
  {| cabptv1.Name := "cfg-a";
     cabptv1.OwnerReferences := [owner "Cluster" "demo"; owner "Machine" "m1"];
     cabptv1.TalosConfig_ := "context: a" |}.
Definition cfgB : cabptv1.TalosConfig :=
  {| cabptv1.Name := "cfg-b";
     cabptv1.OwnerReferences := [owner "Machine" "m1"];
     cabptv1.TalosConfig_ := "context: b" |}.
Definition cfgC : cabptv1.TalosConfig :=
  {| cabptv1.Name := "cfg-c";
     cabptv1.OwnerReferences := [owner "Machine" "m10"; owner "MachineSet" "m1"];
     cabptv1.TalosConfig_ := "context: c" |}.

(** [configs] are the records listed in [ns1]. *)
Definition world (configs : list cabptv1.TalosConfig) : World :=
  {| Client_Get key :=
       match secrets !! (types.Namespace key, types.Name key) with
       | Some s => inr s
       | None => inl (NotFound (types.Name key))
       end;
     Client_List ns := if String.eqb ns "ns1" then inr configs else inr [];
     RESTConfigFromKubeConfig data :=
       match data with
       | [] => inl (OtherError "invalid configuration: no configuration has been provided")
       | _ :: _ => inr {| rest.Host := "https://demo:6443"; rest.Dial := None |}
       end;
     NewForConfig _ := None;
     Nodes_Get _ name :=
       match nodes !! name with
       | Some n => inr n
       | None => inl (NotFound name)
       end;
     FromString s := inr {| talosconfig.Context := s |};
     talosclient_New _ _ := None |}.

Definition demo : types.NamespacedName :=
  {| types.Namespace := "ns1"; types.Name := "demo" |}.
Definition nokey : types.NamespacedName :=
  {| types.Namespace := "ns1"; types.Name := "nokey" |}.
Definition absent : types.NamespacedName :=
  {| types.Namespace := "ns1"; types.Name := "absent" |}.

Definition machine (name : string) (addrs : list (string * string))
    (nodeRef : option string) : clusterv1.Machine :=
  {| clusterv1.Namespace := "ns1";
     clusterv1.Name_ := name;
     clusterv1.Addresses :=
       map (fun a => {| clusterv1.Type_ := a.1; clusterv1.Address := a.2 |}) addrs;
     clusterv1.NodeRef := option_map (fun n => {| clusterv1.Name := n |}) nodeRef |}.

Definition m1 := machine "m1" [("Hostname", "m1"); ("InternalIP", "10.0.0.1")] (Some "node-1").
Definition m2 := machine "m2" [("InternalIP", "10.0.0.2"); ("ExternalIP", "192.0.2.2")] (Some "node-2").
Definition m3 := machine "m3" [("Hostname", "m3")] (Some "node-3").
Definition m4 := machine "m4" [("InternalIP", "10.0.0.4")] None.

(** A control plane whose init config is [true] when it is set. *)
Definition tcp (init : bool) : controlplanev1.TalosControlPlane bool :=
  {| controlplanev1.Namespace := "ns1";
     controlplanev1.Labels := {[ "cluster.x-k8s.io/cluster-name" := "demo" ]};
     controlplanev1.InitConfig := init |}.
Definition IsZero (init : bool) : bool := negb init.

End Demo.

(** * Properties *)

(** ** The monad *)

Lemma bind_Ok {A B} (tr : list Event) (a : A) (f : A -> M B) :
  bind (tr, Ok a) f = (tr ++ (f a).1, (f a).2).
Proof. unfold bind. by destruct (f a). Qed.

Lemma bind_Err {A B} (tr : list Event) (e : error) (f : A -> M B) :
  bind (tr, Err e) f = (tr, Err e).
Proof. reflexivity. Qed.

Lemma bind_ret {A B} (a : A) (f : A -> M B) : bind (ret a) f = f a.
Proof. unfold ret. rewrite bind_Ok. by destruct (f a). Qed.

Lemma bind_assoc {A B C} (m : M A) (f : A -> M B) (g : B -> M C) :
  bind (bind m f) g = bind m (fun a => bind (f a) g).
Proof.
  destruct m as [tr [a|e]]; [|reflexivity].
  unfold bind at 2 3. destruct (f a) as [tr1 [b|e1]]; simpl.
  - destruct (g b) as [tr2 r2]. by rewrite app_assoc.
  - reflexivity.
Qed.

(** An error of a collaborator is never one of the resolver's own. *)
Lemma call_outcome {A} (ev : Event) (r : ExtError + A) :
  trace (call ev r) = [ev] /\
  match r with
  | inr a => outcome (call ev r) = Ok a
  | inl e => outcome (call ev r) = Err (ErrExternal e)
  end.
Proof. by destruct r. Qed.

(** ** Workload-cluster access *)

(** The four ways [kubeconfigForCluster] can go. *)
Lemma kubeconfigForCluster_cases (w : World) (cluster : types.NamespacedName) :
  let key := kubeconfigKey cluster in
  match Client_Get w key with
  | inl e => kubeconfigForCluster w cluster = ([EvClientGet key], Err (ErrExternal e))
  | inr secret =>
      let data := mapIndex (corev1.Data secret) "value" in
      match RESTConfigFromKubeConfig w data with
      | inl e =>
          kubeconfigForCluster w cluster =
            ([EvClientGet key; EvRESTConfigFromKubeConfig data], Err (ErrExternal e))
      | inr config =>
          let config' := rest.withDial config newDialer in
          let tr := [EvClientGet key; EvRESTConfigFromKubeConfig data;
                     EvNewDialer newDialer; EvNewForConfig config'] in
          match NewForConfig w config' with
          | Some e => kubeconfigForCluster w cluster = (tr, Err (ErrExternal e))
          | None =>
              kubeconfigForCluster w cluster =
                (tr, Ok {| Clientset := {| kubernetes.config := config' |};
                           dialer := newDialer |})
          end
      end
  end.
Proof.
  unfold kubeconfigForCluster, kubeconfigKey. simpl.
  destruct (Client_Get w _) as [e|secret]; simpl; [reflexivity|].
  destruct (RESTConfigFromKubeConfig w _) as [e|config]; simpl; [reflexivity|].
  destruct (NewForConfig w _) as [e|]; reflexivity.
Qed.

(** C7: workload-cluster access reads the secret [<clusterName>-kubeconfig]
    of the cluster's namespace, first and only once; every other call it
    makes stays in the process.  When that read fails, the call returns
    the store's error unchanged and the read is the only operation made
    (no parse, no dialer, no client). *)
Theorem kubeconfigForCluster_secret_get (w : World) (cluster : types.NamespacedName) :
  let key := {| types.Namespace := types.Namespace cluster;
                types.Name := types.Name cluster +:+ "-kubeconfig" |} in
  (exists rest, trace (kubeconfigForCluster w cluster) = EvClientGet key :: rest
                /\ Forall (fun ev => is_network_call ev = false) rest)
  /\ (forall e, Client_Get w key = inl e ->
        kubeconfigForCluster w cluster = ([EvClientGet key], Err (ErrExternal e))).
Proof.
  intros key. pose proof (kubeconfigForCluster_cases w cluster) as H.
  simpl in H. change (kubeconfigKey cluster) with key in H. split.
  - destruct (Client_Get w key) as [e|secret].
    { rewrite H. exists []. by split. }
    destruct (RESTConfigFromKubeConfig w _) as [e|config].
    { rewrite H. eexists. split; [reflexivity|]. by repeat constructor. }
    destruct (NewForConfig w _) as [e|]; rewrite H;
      (eexists; split; [reflexivity|]; by repeat constructor).
  - intros e He. by rewrite He in H.
Qed.

Lemma kubeconfigForCluster_secret_get_witness :
  kubeconfigForCluster (Demo.world []) Demo.absent =
    ([EvClientGet {| types.Namespace := "ns1"; types.Name := "absent-kubeconfig" |}],
     Err (ErrExternal (NotFound "absent-kubeconfig"))).
Proof.
  apply (proj2 (kubeconfigForCluster_secret_get (Demo.world []) Demo.absent)).
  vm_compute. reflexivity.
Defined.

(** C8: the client of every successful workload-cluster access carries the
    dialer made by [newDialer], whose dial timeout and keep-alive are both
    30 seconds (30 000 000 000 ns) whatever the world and the cluster; that
    dialer is the one installed in the client configuration, and the only
    one made. *)
Theorem kubeconfigForCluster_dialer_30s (w : World) (cluster : types.NamespacedName)
    (tr : list Event) (k : kubernetesClient) :
  kubeconfigForCluster w cluster = (tr, Ok k) ->
  net.Timeout (connrotation.dial (dialer k)) = (30 * time.Second)%Z
  /\ net.KeepAlive (connrotation.dial (dialer k)) = (30 * time.Second)%Z
  /\ (30 * time.Second = 30000000000)%Z
  /\ rest.Dial (kubernetes.config (Clientset k)) = Some (dialer k)
  /\ (forall d, EvNewDialer d ∈ tr -> d = dialer k).
Proof.
  intros H. pose proof (kubeconfigForCluster_cases w cluster) as Hc. simpl in Hc.
  destruct (Client_Get w _) as [e|secret]; [congruence|].
  destruct (RESTConfigFromKubeConfig w _) as [e|config]; [congruence|].
  destruct (NewForConfig w _) as [e|]; [congruence|].
  rewrite Hc in H. injection H as <- <-. simpl.
  repeat split.
  intros d Hd. repeat (apply elem_of_cons in Hd as [Hd|Hd]; [congruence|]).
  by apply elem_of_nil in Hd.
Qed.

Lemma kubeconfigForCluster_dialer_30s_witness :
  exists tr k,
    kubeconfigForCluster (Demo.world []) Demo.demo = (tr, Ok k)
    /\ net.Timeout (connrotation.dial (dialer k)) = 30000000000%Z
    /\ net.KeepAlive (connrotation.dial (dialer k)) = 30000000000%Z.
Proof.
  eexists _, _. split; [vm_compute; reflexivity|].
  split;
    [ apply (proj1 (kubeconfigForCluster_dialer_30s (Demo.world []) Demo.demo _ _ eq_refl))
    | apply (proj1 (proj2 (kubeconfigForCluster_dialer_30s (Demo.world []) Demo.demo _ _ eq_refl))) ].
Defined.

(** C10: when the secret exists, the bytes handed to the kubeconfig parser
    are those under the key [value] of its data, whatever else the secret
    holds, and the empty byte string when that key is missing; when the
    parser rejects them, the call fails with the parser's error (not with a
    not-found error of the store), after exactly two operations: the read of
    the secret and the parse. *)
Theorem kubeconfigForCluster_parse_value_key (w : World) (cluster : types.NamespacedName)
    (secret : corev1.Secret) (e : ExtError) :
  let key := kubeconfigKey cluster in
  let data := default [] (corev1.Data secret !! "value") in
  Client_Get w key = inr secret ->
  RESTConfigFromKubeConfig w data = inl e ->
  kubeconfigForCluster w cluster =
    ([EvClientGet key; EvRESTConfigFromKubeConfig data], Err (ErrExternal e))
  /\ (corev1.Data secret !! "value" = None -> data = []).
Proof.
  intros key data Hget Hparse.
  pose proof (kubeconfigForCluster_cases w cluster) as Hc. simpl in Hc.
  fold key in Hc. rewrite Hget in Hc. unfold mapIndex in Hc. fold data in Hc.
  rewrite Hparse in Hc. split; [exact Hc|].
  unfold data. by intros ->.
Qed.

Lemma kubeconfigForCluster_parse_value_key_witness :
  kubeconfigForCluster (Demo.world []) Demo.nokey =
    ([EvClientGet {| types.Namespace := "ns1"; types.Name := "nokey-kubeconfig" |};
      EvRESTConfigFromKubeConfig []],
     Err (ErrExternal
            (OtherError "invalid configuration: no configuration has been provided"))).
Proof.
  refine (proj1 (kubeconfigForCluster_parse_value_key (Demo.world []) Demo.nokey
                   {| corev1.Data := {[ "data" := [Byte.x7b; Byte.x7d] ]} |} _ _ _)).
  - vm_compute. reflexivity.
  - vm_compute. reflexivity.
Defined.

Lemma outcome_bind {A B} (m : M A) (f : A -> M B) :
  outcome (bind m f) =
    match outcome m with
    | Ok a => outcome (f a)
    | Err e => Err e
    end.
Proof. destruct m as [tr [a|e]]; simpl; [|reflexivity]. by destruct (f a). Qed.

Lemma trace_bind {A B} (m : M A) (f : A -> M B) :
  trace (bind m f) =
    trace m ++ match outcome m with
               | Ok a => trace (f a)
               | Err _ => []
               end.
Proof.
  destruct m as [tr [a|e]]; simpl.
  - by destruct (f a).
  - by rewrite app_nil_r.
Qed.

(** ** Credential lookup *)

Lemma refMatches_spec (machineName : string) (ref : metav1.OwnerReference) :
  refMatches machineName ref = true <->
  metav1.Kind ref = "Machine" /\ metav1.Name ref = machineName.
Proof.
  unfold refMatches. rewrite andb_true_iff, !String.eqb_eq. tauto.
Qed.

Lemma refsMatch_spec (machineName : string) (refs : list metav1.OwnerReference) :
  refsMatch machineName refs = true <->
  exists ref, ref ∈ refs /\ metav1.Kind ref = "Machine" /\ metav1.Name ref = machineName.
Proof.
  induction refs as [|ref refs IH]; simpl.
  - split; [discriminate|]. intros (ref & Hin & _). by apply elem_of_nil in Hin.
  - destruct (refMatches machineName ref) eqn:Hm.
    + split; [|done]. intros _. exists ref. split; [left|by apply refMatches_spec].
    + rewrite IH. split.
      * intros (r & Hin & Hr). exists r. split; [by right|done].
      * intros (r & Hin & Hr). apply elem_of_cons in Hin as [->|Hin].
        -- apply refMatches_spec in Hr. congruence.
        -- by exists r.
Qed.

(** The scan with [break outer] gives the first owned record. *)
Lemma scanBreakOuter_Some (machineName : string) (cfgs : list cabptv1.TalosConfig)
    (c : cabptv1.TalosConfig) :
  scanBreakOuter machineName cfgs = Some c <->
  exists pre post,
    cfgs = pre ++ c :: post
    /\ owned machineName c = true
    /\ Forall (fun c' => owned machineName c' = false) pre.
Proof.
  induction cfgs as [|cfg rest IH]; simpl.
  - split; [discriminate|]. intros (pre & post & H & _). by destruct pre.
  - fold (owned machineName cfg). destruct (owned machineName cfg) eqn:Hcfg.
    + split.
      * intros [= <-]. by exists [], rest.
      * intros ([|c' pre] & post & Heq & Hc & Hpre); simplify_eq/=; [done|].
        apply Forall_cons in Hpre as [Hc' _]. congruence.
    + rewrite IH. split.
      * intros (pre & post & -> & Hc & Hpre). exists (cfg :: pre), post.
        split; [done|]. split; [done|]. by constructor.
      * intros ([|c' pre] & post & Heq & Hc & Hpre); simplify_eq/=; [congruence|].
        apply Forall_cons in Hpre as [_ Hpre]. by exists pre, post.
Qed.

Lemma scanBreakOuter_None (machineName : string) (cfgs : list cabptv1.TalosConfig) :
  scanBreakOuter machineName cfgs = None <->
  Forall (fun c => owned machineName c = false) cfgs.
Proof.
  induction cfgs as [|cfg rest IH]; simpl; [by split|].
  fold (owned machineName cfg). destruct (owned machineName cfg) eqn:Hcfg.
  - split; [discriminate|]. intros H. apply Forall_cons in H as [H _]. congruence.
  - rewrite IH. split; [by constructor|]. intros H. by apply Forall_cons in H as [_ H].
Qed.

(** The scan with the plain [break], one loop variable per iteration: the
    last owned record. *)
Lemma scanBreakInner_PerIteration (machineName : string)
    (cfgs : list cabptv1.TalosConfig) (found : option cabptv1.TalosConfig) :
  scanBreakInner PerIteration machineName cfgs found =
    match last (List.filter (owned machineName) cfgs) with
    | Some c => Some c
    | None => found
    end.
Proof.
  revert found. induction cfgs as [|cfg rest IH]; intros found; simpl; [done|].
  fold (owned machineName cfg). rewrite IH.
  destruct (owned machineName cfg) eqn:Hcfg; simpl.
  - destruct (List.filter (owned machineName) rest) as [|c l] eqn:Hf; simpl.
    + by destruct found.
    + destruct (last (c :: l)) eqn:Hl; [done|]. by apply last_None in Hl.
  - by destruct found.
Qed.

(** The scan with the plain [break], one variable for the whole loop: once
    a record is owned, [found] follows the loop variable to the last record
    of the list, owned or not. *)
Lemma scanBreakInner_PerLoop_Some (machineName : string)
    (cfgs : list cabptv1.TalosConfig) (c0 : cabptv1.TalosConfig) :
  scanBreakInner PerLoop machineName cfgs (Some c0) = Some (default c0 (last cfgs)).
Proof.
  revert c0. induction cfgs as [|cfg rest IH]; intros c0; simpl; [done|].
  rewrite last_cons.
  destruct (refsMatch machineName (cabptv1.OwnerReferences cfg));
    rewrite IH; by destruct (last rest).
Qed.

Lemma scanBreakInner_PerLoop (machineName : string) (cfgs : list cabptv1.TalosConfig) :
  scanBreakInner PerLoop machineName cfgs None =
    if existsb (owned machineName) cfgs then last cfgs else None.
Proof.
  induction cfgs as [|cfg rest IH]; simpl; [done|].
  fold (owned machineName cfg). destruct (owned machineName cfg) eqn:Hcfg; simpl.
  - rewrite scanBreakInner_PerLoop_Some, last_cons. by destruct (last rest).
  - rewrite IH, last_cons. destruct (existsb _ rest) eqn:Hex; [|done].
    destruct (last rest) eqn:Hl; [done|].
    apply last_None in Hl. by subst.
Qed.

(** In both readings the scan finds nothing exactly when no record is owned. *)
Lemma scanBreakInner_None (sem : LoopVar) (machineName : string)
    (cfgs : list cabptv1.TalosConfig) :
  scanBreakInner sem machineName cfgs None = None <->
  Forall (fun c => owned machineName c = false) cfgs.
Proof.
  destruct sem.
  - rewrite scanBreakInner_PerLoop. destruct (existsb _ cfgs) eqn:Hex.
    + apply existsb_exists in Hex as (c & Hin & Hc). split.
      * intros Hl. apply last_None in Hl. subst. by destruct Hin.
      * intros H. rewrite Forall_forall in H. apply list_elem_of_In in Hin.
        specialize (H c Hin). congruence.
    + split; [|done]. intros _. apply Forall_forall. intros c Hin.
      destruct (owned machineName c) eqn:Hc; [|done].
      assert (existsb (owned machineName) cfgs = true); [|congruence].
      apply existsb_exists. exists c. split; [by apply list_elem_of_In|done].
  - rewrite scanBreakInner_PerIteration.
    destruct (last (List.filter (owned machineName) cfgs)) eqn:Hl.
    + split; [discriminate|]. intros H. exfalso.
      apply last_Some_elem_of, list_elem_of_In, filter_In in Hl as [Hin Hc].
      rewrite Forall_forall in H. apply list_elem_of_In in Hin.
      specialize (H _ Hin). congruence.
    + split; [|done]. intros _. apply last_None in Hl.
      apply Forall_forall. intros c Hin.
      destruct (owned machineName c) eqn:Hc; [|done].
      assert (In c (List.filter (owned machineName) cfgs)) as Hf.
      { apply filter_In. split; [by apply list_elem_of_In|done]. }
      rewrite Hl in Hf. destruct Hf.
Qed.

Lemma findTalosConfig_cases (w : World) (machine : clusterv1.Machine) :
  findTalosConfig w machine =
    lookupWith w machine (scanBreakOuter (clusterv1.Name_ machine)).
Proof.
  unfold findTalosConfig, lookupWith.
  destruct (Client_List w _) as [e|cfgs]; simpl; [done|].
  destruct (scanBreakOuter _ cfgs) as [found|]; simpl; [|done].
  by destruct (FromString w _).
Qed.

Lemma findTalosConfigWorkload_cases (sem : LoopVar) (w : World)
    (machine : clusterv1.Machine) :
  findTalosConfigWorkload sem w machine =
    lookupWith w machine
      (fun cfgs => scanBreakInner sem (clusterv1.Name_ machine) cfgs None).
Proof.
  unfold findTalosConfigWorkload, lookupWith.
  destruct (Client_List w _) as [e|cfgs]; simpl; [done|].
  destruct (scanBreakInner _ _ cfgs None) as [found|]; simpl; [|done].
  by destruct (FromString w _).
Qed.

Lemma lookupWith_not_ErrNoAddresses (w : World) (machine : clusterv1.Machine)
    (scan : list cabptv1.TalosConfig -> option cabptv1.TalosConfig) (x : string) :
  outcome (lookupWith w machine scan) <> Err (ErrNoAddresses x).
Proof.
  unfold lookupWith. destruct (Client_List w _) as [e|cfgs]; [done|].
  destruct (scan cfgs) as [found|]; [|done].
  by destruct (FromString w _).
Qed.

Lemma lookupWith_direct_calls (w : World) (machine : clusterv1.Machine)
    (scan : list cabptv1.TalosConfig -> option cabptv1.TalosConfig) :
  Forall (fun ev => is_direct_call ev = true) (trace (lookupWith w machine scan)).
Proof.
  unfold lookupWith. destruct (Client_List w _) as [e|cfgs]; [by repeat constructor|].
  destruct (scan cfgs) as [found|]; [|by repeat constructor].
  destruct (FromString w _); by repeat constructor.
Qed.

(** The direct path parses the first owned record of the list, and fails
    with the not-found error exactly when no record is owned. *)
Lemma findTalosConfig_first_owned (w : World) (machine : clusterv1.Machine)
    (pre post : list cabptv1.TalosConfig) (c : cabptv1.TalosConfig) :
  Client_List w (clusterv1.Namespace machine) = inr (pre ++ c :: post) ->
  owned (clusterv1.Name_ machine) c = true ->
  Forall (fun c' => owned (clusterv1.Name_ machine) c' = false) pre ->
  findTalosConfig w machine =
    ([EvClientList (clusterv1.Namespace machine); EvFromString (cabptv1.TalosConfig_ c)],
     match FromString w (cabptv1.TalosConfig_ c) with
     | inl e => Err (ErrExternal e)
     | inr t => Ok t
     end).
Proof.
  intros Hl Hc Hpre. rewrite findTalosConfig_cases. unfold lookupWith. rewrite Hl.
  assert (scanBreakOuter (clusterv1.Name_ machine) (pre ++ c :: post) = Some c) as ->.
  { apply scanBreakOuter_Some. by exists pre, post. }
  simpl. by destruct (FromString w _).
Qed.

Lemma findTalosConfig_none_owned (w : World) (machine : clusterv1.Machine)
    (cfgs : list cabptv1.TalosConfig) :
  Client_List w (clusterv1.Namespace machine) = inr cfgs ->
  Forall (fun c => owned (clusterv1.Name_ machine) c = false) cfgs ->
  outcome (findTalosConfig w machine) = Err (ErrTalosConfigNotFound (clusterv1.Name_ machine))
  /\ forall sem,
       outcome (findTalosConfigWorkload sem w machine) =
         Err (ErrTalosConfigNotFound (clusterv1.Name_ machine)).
Proof.
  intros Hl Hnone. split; [|intros sem].
  - rewrite findTalosConfig_cases. unfold lookupWith. rewrite Hl.
    by apply scanBreakOuter_None in Hnone as ->.
  - rewrite findTalosConfigWorkload_cases. unfold lookupWith. rewrite Hl.
    by apply (scanBreakInner_None sem) in Hnone as ->.
Qed.

(** C1: the lookup of the indirect path does not stop at the first owned
    record.  With the records [cfg-a] and [cfg-b], both owned by machine
    [m1] and listed in that order, the direct path parses the talosconfig of
    [cfg-a], the first; the indirect path parses that of [cfg-b], in both
    readings of the loop variable.  With [cfg-a] followed by [cfg-c], which
    [m1] does not own, the indirect path with one variable per loop parses
    the talosconfig of [cfg-c]. *)
Theorem findTalosConfigWorkload_not_first :
  owned "m1" Demo.cfgA = true /\ owned "m1" Demo.cfgB = true
  /\ owned "m1" Demo.cfgC = false
  /\ findTalosConfig (Demo.world [Demo.cfgA; Demo.cfgB]) Demo.m1 =
       ([EvClientList "ns1"; EvFromString "context: a"],
        Ok {| talosconfig.Context := "context: a" |})
  /\ (forall sem,
        findTalosConfigWorkload sem (Demo.world [Demo.cfgA; Demo.cfgB]) Demo.m1 =
          ([EvClientList "ns1"; EvFromString "context: b"],
           Ok {| talosconfig.Context := "context: b" |}))
  /\ findTalosConfigWorkload PerLoop (Demo.world [Demo.cfgA; Demo.cfgC]) Demo.m1 =
       ([EvClientList "ns1"; EvFromString "context: c"],
        Ok {| talosconfig.Context := "context: c" |})
  /\ (forall sem,
        outcome (talosconfigFromWorkloadCluster sem (Demo.world [Demo.cfgA; Demo.cfgB])
                   Demo.demo [Demo.m1]) =
          Ok {| talosclient.Endpoints := ["10.0.0.1"];
                talosclient.Config := Some {| talosconfig.Context := "context: b" |} |}).
Proof.
  repeat split; try (vm_compute; reflexivity); intros []; vm_compute; reflexivity.
Qed.

(** ** Address collection *)

Lemma appendMachineIPs_spec (addrList : list string) (machine : clusterv1.Machine) :
  appendMachineIPs addrList (clusterv1.Addresses machine) = addrList ++ machineIPs machine.
Proof.
  unfold appendMachineIPs, machineIPs. revert addrList.
  induction (clusterv1.Addresses machine) as [|addr addrs IH]; intros addrList; simpl.
  - by rewrite app_nil_r.
  - rewrite IH. destruct (isMachineIP addr); simpl; [|done].
    by rewrite <- app_assoc.
Qed.

Lemma appendNodeIPs_spec (addrList : list string) (node : corev1.Node) :
  appendNodeIPs addrList (corev1.Addresses node) = addrList ++ nodeIPs node.
Proof.
  unfold appendNodeIPs, nodeIPs. revert addrList.
  induction (corev1.Addresses node) as [|addr addrs IH]; intros addrList; simpl.
  - by rewrite app_nil_r.
  - rewrite IH. destruct (isNodeIP addr); simpl; [|done].
    by rewrite <- app_assoc.
Qed.

(** An address is collected exactly when its type is [ExternalIP] or
    [InternalIP]. *)
Lemma machineIPs_elem (machine : clusterv1.Machine) (a : string) :
  a ∈ machineIPs machine <->
  exists addr, addr ∈ clusterv1.Addresses machine
               /\ clusterv1.Address addr = a
               /\ (clusterv1.Type_ addr = "ExternalIP" \/ clusterv1.Type_ addr = "InternalIP").
Proof.
  unfold machineIPs. rewrite list_elem_of_fmap. split.
  - intros (addr & -> & Hin). exists addr.
    apply list_elem_of_In, filter_In in Hin as [Hin Hip].
    split; [by apply list_elem_of_In|]. split; [done|].
    unfold isMachineIP in Hip. apply orb_true_iff in Hip.
    by rewrite !String.eqb_eq in Hip.
  - intros (addr & Hin & <- & Hty). exists addr. split; [done|].
    apply list_elem_of_In, filter_In. split; [by apply list_elem_of_In|].
    unfold isMachineIP. apply orb_true_iff. by rewrite !String.eqb_eq.
Qed.

Lemma length_eqb_0_false {A} (l : list A) : l <> [] -> Nat.eqb (length l) 0 = false.
Proof. by destruct l. Qed.

(** ** The direct path *)

Arguments bind : simpl never.
Arguments ret : simpl never.
Arguments fail : simpl never.

(** Once a credential is held and an address has been collected, the rest
    of the loop only collects addresses: it makes no call and cannot fail. *)
Lemma machinesLoop_tail (w : World) (addrList : list string) (c : talosconfig.Config)
    (machines : list clusterv1.Machine) :
  addrList <> [] ->
  machinesLoop w addrList (Some c) machines =
    ([], Ok (addrList ++ concat (map machineIPs machines), Some c)).
Proof.
  revert addrList. induction machines as [|machine rest IH]; intros addrList Hne; simpl.
  - by rewrite app_nil_r.
  - rewrite appendMachineIPs_spec.
    rewrite length_eqb_0_false by (by destruct addrList).
    rewrite bind_ret, IH by (by destruct addrList).
    by rewrite <- app_assoc.
Qed.

(** The first iteration decides everything that can go wrong. *)
Lemma machinesLoop_first (w : World) (machine : clusterv1.Machine)
    (rest : list clusterv1.Machine) :
  machinesLoop w [] None (machine :: rest) =
    match machineIPs machine with
    | [] => ([], Err (ErrNoAddresses (clusterv1.Name_ machine)))
    | _ :: _ =>
        c <- findTalosConfig w machine ;;
        ret (concat (map machineIPs (machine :: rest)), Some c)
    end.
Proof.
  simpl. rewrite appendMachineIPs_spec. simpl.
  destruct (machineIPs machine) as [|a l] eqn:Hips; simpl; [done|].
  rewrite bind_assoc. destruct (findTalosConfig w machine) as [tr [c|e]]; [|done].
  rewrite !bind_Ok, bind_ret. by rewrite machinesLoop_tail.
Qed.

Lemma talosclientNew_cases (w : World) (eps : list string)
    (t : option talosconfig.Config) :
  talosclientNew w eps t =
    ([EvTalosClientNew eps t],
     match talosclient_New w eps t with
     | Some e => Err (ErrExternal e)
     | None => Ok {| talosclient.Endpoints := eps; talosclient.Config := t |}
     end).
Proof. unfold talosclientNew. by destruct (talosclient_New w eps t). Qed.

(** The direct path, when the first machine has an address: the lookup of
    the first machine's credential, then the client constructor on all the
    addresses. *)
Lemma directPath_first_has_address (w : World) (machine : clusterv1.Machine)
    (rest : list clusterv1.Machine) :
  machineIPs machine <> [] ->
  directPath w (machine :: rest) =
    (c <- findTalosConfig w machine ;;
     talosclientNew w (concat (map machineIPs (machine :: rest))) (Some c)).
Proof.
  intros Hne. unfold directPath. rewrite machinesLoop_first.
  destruct (machineIPs machine) as [|a l] eqn:Hips; [done|].
  rewrite bind_assoc. destruct (findTalosConfig w machine) as [tr [c|e]]; [|done].
  by rewrite !bind_Ok, bind_ret.
Qed.

Lemma talosconfigForMachines_direct {T} (IsZero : T -> bool) (sem : LoopVar) (w : World)
    (tcp : controlplanev1.TalosControlPlane T) (machine : clusterv1.Machine)
    (rest : list clusterv1.Machine) :
  IsZero (controlplanev1.InitConfig tcp) = true ->
  talosconfigForMachines IsZero sem w tcp (machine :: rest) = directPath w (machine :: rest).
Proof. intros Hz. unfold talosconfigForMachines. by rewrite Hz. Qed.

Lemma talosconfigForMachines_indirect {T} (IsZero : T -> bool) (sem : LoopVar) (w : World)
    (tcp : controlplanev1.TalosControlPlane T) (machines : list clusterv1.Machine) :
  IsZero (controlplanev1.InitConfig tcp) = false ->
  talosconfigForMachines IsZero sem w tcp machines =
    talosconfigFromWorkloadCluster sem w (clusterKey tcp) machines.
Proof. intros Hz. unfold talosconfigForMachines. rewrite Hz. by destruct machines. Qed.

(** C2: in direct mode the emptiness check bears on the addresses collected
    so far.  When the first machine has no external or internal IP address,
    the call fails at once (no call is made) with the no-addresses error
    naming that machine, whatever the later machines report.  When the
    first machine has such an address, the call never fails with the
    no-addresses error, whatever the later machines report: it is the
    lookup of the first machine's credential followed by the client
    constructor on the addresses of all machines. *)
Theorem direct_empty_check_is_cumulative {T} (IsZero : T -> bool) (sem : LoopVar)
    (w : World) (tcp : controlplanev1.TalosControlPlane T)
    (machine : clusterv1.Machine) (rest : list clusterv1.Machine) :
  IsZero (controlplanev1.InitConfig tcp) = true ->
  (machineIPs machine = [] ->
     talosconfigForMachines IsZero sem w tcp (machine :: rest) =
       ([], Err (ErrNoAddresses (clusterv1.Name_ machine))))
  /\ (machineIPs machine <> [] ->
        talosconfigForMachines IsZero sem w tcp (machine :: rest) =
          (c <- findTalosConfig w machine ;;
           talosclientNew w (concat (map machineIPs (machine :: rest))) (Some c))
        /\ forall x,
             outcome (talosconfigForMachines IsZero sem w tcp (machine :: rest))
             <> Err (ErrNoAddresses x)).
Proof.
  intros Hz. rewrite talosconfigForMachines_direct by done. split.
  - intros Hnil. unfold directPath. rewrite machinesLoop_first, Hnil. done.
  - intros Hne. rewrite directPath_first_has_address by done. split; [done|].
    intros x. rewrite outcome_bind, findTalosConfig_cases.
    pose proof (lookupWith_not_ErrNoAddresses w machine
                  (scanBreakOuter (clusterv1.Name_ machine)) x) as Hl.
    destruct (outcome (lookupWith w machine _)) as [c|e]; [|congruence].
    rewrite talosclientNew_cases. simpl. by destruct (talosclient_New w _ _).
Qed.

Lemma direct_empty_check_is_cumulative_witness :
  talosconfigForMachines Demo.IsZero PerLoop (Demo.world [Demo.cfgA]) (Demo.tcp false)
    [Demo.m3; Demo.m1] = ([], Err (ErrNoAddresses "m3"))
  /\ forall x,
       outcome (talosconfigForMachines Demo.IsZero PerLoop (Demo.world [Demo.cfgA])
                  (Demo.tcp false) [Demo.m1; Demo.m3])
       <> Err (ErrNoAddresses x).
Proof.
  split.
  - apply (proj1 (direct_empty_check_is_cumulative Demo.IsZero PerLoop
                    (Demo.world [Demo.cfgA]) (Demo.tcp false) Demo.m3 [Demo.m1] eq_refl)).
    reflexivity.
  - apply (proj2 (direct_empty_check_is_cumulative Demo.IsZero PerLoop
                    (Demo.world [Demo.cfgA]) (Demo.tcp false) Demo.m1 [Demo.m3] eq_refl)).
    vm_compute. discriminate.
Defined.

(** That statement fails when the namespace holds no TalosConfig owned by
    the first machine: machine [m1] has the address 10.0.0.1, no record is
    listed, and the call fails with the credential-not-found error. *)
Lemma direct_resolution_always_succeeds_fails :
  outcome (talosconfigForMachines Demo.IsZero PerLoop (Demo.world []) (Demo.tcp false)
             [Demo.m1]) = Err (ErrTalosConfigNotFound "m1")
  /\ ~ direct_resolution_always_succeeds.
Proof.
  split; [vm_compute; reflexivity|].
  intros H.
  destruct (H bool Demo.IsZero PerLoop (Demo.world []) (Demo.tcp false) [Demo.m1])
    as (client & Hok & _).
  - reflexivity.
  - discriminate.
  - repeat constructor. vm_compute. discriminate.
  - vm_compute in Hok. discriminate.
Qed.

(** C5, amended: in direct mode, for a non-empty machine list whose
    machines all have an external or internal IP address, and when the
    lookup of the first machine's credential succeeds (the list of its
    namespace is read, a record owned by it is listed, the talosconfig of
    the first such record parses), the client constructor is called on
    exactly the external and internal IP addresses of all machines, by
    machine order and then by order of the address records, other types
    left out; the call succeeds with a client on these endpoints when the
    constructor accepts, and returns the constructor's error otherwise. *)
Theorem direct_endpoints_exact {T} (IsZero : T -> bool) (sem : LoopVar) (w : World)
    (tcp : controlplanev1.TalosControlPlane T)
    (machine : clusterv1.Machine) (rest : list clusterv1.Machine)
    (cfgs : list cabptv1.TalosConfig) (found : cabptv1.TalosConfig)
    (t : talosconfig.Config) :
  IsZero (controlplanev1.InitConfig tcp) = true ->
  Forall (fun m => machineIPs m <> []) (machine :: rest) ->
  Client_List w (clusterv1.Namespace machine) = inr cfgs ->
  scanBreakOuter (clusterv1.Name_ machine) cfgs = Some found ->
  FromString w (cabptv1.TalosConfig_ found) = inr t ->
  let eps := concat (map machineIPs (machine :: rest)) in
  let r := talosconfigForMachines IsZero sem w tcp (machine :: rest) in
  eps <> []
  /\ trace r = [EvClientList (clusterv1.Namespace machine);
                EvFromString (cabptv1.TalosConfig_ found);
                EvTalosClientNew eps (Some t)]
  /\ outcome r =
       match talosclient_New w eps (Some t) with
       | Some e => Err (ErrExternal e)
       | None => Ok {| talosclient.Endpoints := eps; talosclient.Config := Some t |}
       end
  /\ (forall a, a ∈ eps <->
        exists m addr,
          m ∈ machine :: rest /\ addr ∈ clusterv1.Addresses m
          /\ clusterv1.Address addr = a
          /\ (clusterv1.Type_ addr = "ExternalIP" \/ clusterv1.Type_ addr = "InternalIP")).
Proof.
  intros Hz Hall Hlist Hscan Hparse eps r.
  assert (machineIPs machine <> []) as Hne by (by apply Forall_cons in Hall as [? _]).
  assert (r = ([EvClientList (clusterv1.Namespace machine);
                EvFromString (cabptv1.TalosConfig_ found);
                EvTalosClientNew eps (Some t)],
               match talosclient_New w eps (Some t) with
               | Some e => Err (ErrExternal e)
               | None => Ok {| talosclient.Endpoints := eps; talosclient.Config := Some t |}
               end)) as Hr.
  { unfold r. rewrite talosconfigForMachines_direct, directPath_first_has_address by done.
    rewrite findTalosConfig_cases. unfold lookupWith. rewrite Hlist, Hscan, Hparse.
    rewrite bind_Ok, talosclientNew_cases. reflexivity. }
  split; [|split; [by rewrite Hr|split; [by rewrite Hr|]]].
  - unfold eps. simpl. by destruct (machineIPs machine).
  - intros a. unfold eps. rewrite list_elem_of_In, in_concat. split.
    + intros (ips & Hips & Ha). apply list_elem_of_In, list_elem_of_fmap in Hips as (m & -> & Hm).
      apply list_elem_of_In, machineIPs_elem in Ha as (addr & ? & ? & ?). by exists m, addr.
    + intros (m & addr & Hm & Haddr & Ha & Hty). exists (machineIPs m). split.
      * apply list_elem_of_In, list_elem_of_fmap. by exists m.
      * apply list_elem_of_In, machineIPs_elem. by exists addr.
Qed.

Lemma direct_endpoints_exact_witness :
  talosconfigForMachines Demo.IsZero PerLoop (Demo.world [Demo.cfgC; Demo.cfgA; Demo.cfgB])
    (Demo.tcp false) [Demo.m1; Demo.m2; Demo.m4] =
  ([EvClientList "ns1"; EvFromString "context: a";
    EvTalosClientNew ["10.0.0.1"; "10.0.0.2"; "192.0.2.2"; "10.0.0.4"]
      (Some {| talosconfig.Context := "context: a" |})],
   Ok {| talosclient.Endpoints := ["10.0.0.1"; "10.0.0.2"; "192.0.2.2"; "10.0.0.4"];
         talosclient.Config := Some {| talosconfig.Context := "context: a" |} |}).
Proof.
  pose proof (direct_endpoints_exact Demo.IsZero PerLoop
                (Demo.world [Demo.cfgC; Demo.cfgA; Demo.cfgB]) (Demo.tcp false)
                Demo.m1 [Demo.m2; Demo.m4] [Demo.cfgC; Demo.cfgA; Demo.cfgB] Demo.cfgA
                {| talosconfig.Context := "context: a" |}) as H.
  destruct H as (_ & Htr & Hout & _).
  - reflexivity.
  - repeat constructor; vm_compute; discriminate.
  - reflexivity.
  - reflexivity.
  - reflexivity.
  - destruct (talosconfigForMachines _ _ _ _ _) as [tr o]. simpl in Htr, Hout.
    rewrite Htr, Hout. reflexivity.
Defined.

(** ** The indirect path *)

Lemma Forall_trace_bind {A B} (P : Event -> Prop) (m : M A) (f : A -> M B) :
  Forall P (trace m) -> (forall a, Forall P (trace (f a))) ->
  Forall P (trace (bind m f)).
Proof.
  intros Hm Hf. rewrite trace_bind. apply Forall_app. split; [done|].
  destruct (outcome m); [apply Hf|constructor].
Qed.

Lemma kubeconfigForCluster_trace (w : World) (cluster : types.NamespacedName) :
  exists rest,
    trace (kubeconfigForCluster w cluster) = EvClientGet (kubeconfigKey cluster) :: rest
    /\ Forall (fun ev => is_network_call ev = false /\ is_close ev = false) rest.
Proof.
  pose proof (kubeconfigForCluster_cases w cluster) as H. simpl in H.
  destruct (Client_Get w _) as [e|secret].
  { rewrite H. exists []. by split. }
  destruct (RESTConfigFromKubeConfig w _) as [e|config].
  { rewrite H. eexists. split; [reflexivity|]. by repeat constructor. }
  destruct (NewForConfig w _) as [e|]; rewrite H;
    (eexists; split; [reflexivity|]; by repeat constructor).
Qed.

(** The machines are handled in input order: the loop over [pre ++ post]
    is the loop over [pre] followed, when it succeeds, by the loop over
    [post] from the addresses and credential reached. *)
Lemma workloadLoop_app (sem : LoopVar) (w : World) (k : kubernetesClient)
    (pre post : list clusterv1.Machine) (addrList : list string)
    (t : option talosconfig.Config) :
  workloadLoop sem w k addrList t (pre ++ post) =
    (st <- workloadLoop sem w k addrList t pre ;;
     workloadLoop sem w k st.1 st.2 post).
Proof.
  revert addrList t. induction pre as [|machine pre IH]; intros addrList t; simpl.
  - by rewrite bind_ret.
  - destruct (clusterv1.NodeRef machine) as [nodeRef|]; [|done].
    rewrite bind_assoc.
    destruct (call _ (Nodes_Get w _ _)) as [tr [node|e]]; [|done].
    rewrite !bind_Ok. destruct (Nat.eqb _ 0); [done|].
    rewrite bind_assoc.
    destruct (match t with Some _ => _ | None => _ end) as [tr' [t'|e]]; [|done].
    rewrite !bind_Ok. simpl. by rewrite IH.
Qed.

Lemma workloadLoop_not_ErrNoAddresses (sem : LoopVar) (w : World) (k : kubernetesClient)
    (machines : list clusterv1.Machine) (addrList : list string)
    (t : option talosconfig.Config) (x : string) :
  addrList <> [] ->
  outcome (workloadLoop sem w k addrList t machines) <> Err (ErrNoAddresses x).
Proof.
  revert addrList t. induction machines as [|machine rest IH]; intros addrList t Hne; simpl.
  - done.
  - destruct (clusterv1.NodeRef machine) as [nodeRef|]; [|done].
    rewrite outcome_bind. destruct (Nodes_Get w _ _) as [e|node]; simpl; [done|].
    rewrite appendNodeIPs_spec.
    rewrite length_eqb_0_false by (by destruct addrList).
    rewrite outcome_bind. destruct t as [c|].
    + simpl. apply IH. by destruct addrList.
    + rewrite outcome_bind, findTalosConfigWorkload_cases.
      pose proof (lookupWith_not_ErrNoAddresses w machine
        (fun cfgs => scanBreakInner sem (clusterv1.Name_ machine) cfgs None) x) as Hl.
      destruct (outcome (lookupWith w machine _)) as [c|e]; simpl; [|congruence].
      apply IH. by destruct addrList.
Qed.

(** No iteration of the loop closes the client. *)
Lemma workloadLoop_no_close (sem : LoopVar) (w : World) (k : kubernetesClient)
    (machines : list clusterv1.Machine) (addrList : list string)
    (t : option talosconfig.Config) :
  Forall (fun ev => is_close ev = false)
         (trace (workloadLoop sem w k addrList t machines)).
Proof.
  revert addrList t. induction machines as [|machine rest IH]; intros addrList t; simpl.
  - constructor.
  - destruct (clusterv1.NodeRef machine) as [nodeRef|]; [|constructor].
    apply Forall_trace_bind.
    { destruct (Nodes_Get w _ _); by repeat constructor. }
    intros node. destruct (Nat.eqb _ 0); [constructor|].
    apply Forall_trace_bind; [|intros t'; apply IH].
    destruct t as [c|]; [constructor|].
    apply Forall_trace_bind; [|constructor].
    rewrite findTalosConfigWorkload_cases.
    eapply Forall_impl; [apply lookupWith_direct_calls|].
    by intros [].
Qed.

(** The first iteration of the indirect loop. *)
Lemma workloadLoop_first_no_address (sem : LoopVar) (w : World) (k : kubernetesClient)
    (machine : clusterv1.Machine) (rest : list clusterv1.Machine)
    (nodeRef : clusterv1.ObjectReference) (node : corev1.Node) :
  clusterv1.NodeRef machine = Some nodeRef ->
  Nodes_Get w (Clientset k) (clusterv1.Name nodeRef) = inr node ->
  nodeIPs node = [] ->
  workloadLoop sem w k [] None (machine :: rest) =
    ([EvNodesGet (clusterv1.Name nodeRef)], Err (ErrNoAddresses (corev1.Name node))).
Proof.
  intros Href Hget Hips. simpl. rewrite Href, Hget. simpl.
  rewrite bind_Ok, appendNodeIPs_spec, Hips. reflexivity.
Qed.

Lemma talosconfigFromWorkloadCluster_cons (sem : LoopVar) (w : World)
    (cluster : types.NamespacedName) (machine : clusterv1.Machine)
    (rest : list clusterv1.Machine) (tr0 : list Event) (k : kubernetesClient) :
  kubeconfigForCluster w cluster = (tr0, Ok k) ->
  talosconfigFromWorkloadCluster sem w cluster (machine :: rest) =
    (tr0 ++ (st <- workloadLoop sem w k [] None (machine :: rest) ;;
             talosclientNew w st.1 st.2).1,
     (st <- workloadLoop sem w k [] None (machine :: rest) ;;
      talosclientNew w st.1 st.2).2).
Proof.
  intros Hk. unfold talosconfigFromWorkloadCluster. by rewrite Hk, bind_Ok.
Qed.

(** That statement fails twice.  With the only machine [m4] lacking its node reference
    and the kubeconfig secret of the cluster absent, the call fails with the
    store's not-found error: workload-cluster access comes first.  With
    [m1], joined, ahead of [m4], the call does fail with the
    machine-not-joined error naming [m4], but after the secret has been
    read, node [node-1] fetched from the workload cluster and the
    TalosConfig records listed. *)
Lemma unjoined_fails_before_any_call_fails :
  talosconfigFromWorkloadCluster PerLoop (Demo.world [Demo.cfgA]) Demo.absent [Demo.m4] =
    ([EvClientGet {| types.Namespace := "ns1"; types.Name := "absent-kubeconfig" |}],
     Err (ErrExternal (NotFound "absent-kubeconfig")))
  /\ outcome (talosconfigFromWorkloadCluster PerLoop (Demo.world [Demo.cfgA]) Demo.demo
                [Demo.m1; Demo.m4]) = Err (ErrNoNodeRef "m4")
  /\ List.filter is_network_call
       (trace (talosconfigFromWorkloadCluster PerLoop (Demo.world [Demo.cfgA]) Demo.demo
                 [Demo.m1; Demo.m4])) =
       [EvClientGet {| types.Namespace := "ns1"; types.Name := "demo-kubeconfig" |};
        EvNodesGet "node-1"; EvClientList "ns1"]
  /\ ~ unjoined_fails_before_any_call.
Proof.
  repeat split; try (vm_compute; reflexivity).
  intros H.
  destruct (H PerLoop (Demo.world [Demo.cfgA]) Demo.absent [Demo.m4]) as [(name & Hn) _].
  - exists Demo.m4. split; [left|reflexivity].
  - vm_compute in Hn. discriminate.
Qed.

(** C3, amended: in indirect mode, once workload-cluster access has
    succeeded, the machines are handled in input order; for a machine
    without node reference, when every machine before it was handled
    without error, the call fails with the machine-not-joined error naming
    that machine, and the calls made are those of workload-cluster access
    followed by those made for the machines before it: no node is fetched
    and no record listed for that machine or for any machine after it.  In
    particular, when the first machine has no node reference, the only
    calls made are those of workload-cluster access. *)
Theorem unjoined_fails_when_reached (sem : LoopVar) (w : World)
    (cluster : types.NamespacedName)
    (pre post : list clusterv1.Machine) (machine : clusterv1.Machine)
    (tr0 tr1 : list Event) (k : kubernetesClient)
    (st : list string * option talosconfig.Config) :
  kubeconfigForCluster w cluster = (tr0, Ok k) ->
  workloadLoop sem w k [] None pre = (tr1, Ok st) ->
  clusterv1.NodeRef machine = None ->
  talosconfigFromWorkloadCluster sem w cluster (pre ++ machine :: post) =
    (tr0 ++ tr1, Err (ErrNoNodeRef (clusterv1.Name_ machine)))
  /\ (pre = [] -> tr1 = []).
Proof.
  intros Hk Hpre Href. split.
  - unfold talosconfigFromWorkloadCluster.
    assert (forall a t, workloadLoop sem w k a t (machine :: post) =
                        ([], Err (ErrNoNodeRef (clusterv1.Name_ machine)))) as Hm.
    { intros a t. simpl. by rewrite Href. }
    destruct (pre ++ machine :: post) eqn:Hl; [by destruct pre|]. rewrite <- Hl.
    rewrite Hk, bind_Ok, workloadLoop_app, Hpre, bind_Ok, Hm. simpl.
    by rewrite app_nil_r.
  - intros ->. simpl in Hpre. by injection Hpre as <- _.
Qed.

Lemma unjoined_fails_when_reached_witness :
  talosconfigFromWorkloadCluster PerLoop (Demo.world [Demo.cfgA]) Demo.demo
    ([Demo.m1] ++ Demo.m4 :: [Demo.m2]) =
  ((kubeconfigForCluster (Demo.world [Demo.cfgA]) Demo.demo).1
     ++ [EvNodesGet "node-1"; EvClientList "ns1"; EvFromString "context: a"],
   Err (ErrNoNodeRef "m4")).
Proof.
  refine (proj1 (unjoined_fails_when_reached PerLoop (Demo.world [Demo.cfgA]) Demo.demo
                   [Demo.m1] [Demo.m2] Demo.m4 _ _ _ _ _ _ _)).
  - vm_compute. reflexivity.
  - vm_compute. reflexivity.
  - reflexivity.
Defined.

(** C4: the indirect path never closes the client it has built.  No
    [CloseAll] is among the calls of [talosconfigFromWorkloadCluster],
    whatever its arguments and the answers of the collaborators; in
    particular, in the world of the example, the dialer made for cluster
    [demo] is left open both when the call succeeds (machines [m1], [m2])
    and when it fails after the client was built (machine [m4], without
    node reference). *)
Theorem talosconfigFromWorkloadCluster_never_closes :
  (forall (sem : LoopVar) (w : World) (cluster : types.NamespacedName)
          (machines : list clusterv1.Machine),
     Forall (fun ev => is_close ev = false)
            (trace (talosconfigFromWorkloadCluster sem w cluster machines)))
  /\ (let r := talosconfigFromWorkloadCluster PerLoop (Demo.world [Demo.cfgA]) Demo.demo
                 [Demo.m1; Demo.m2] in
      (exists client, outcome r = Ok client)
      /\ List.filter (fun ev => negb (is_network_call ev || is_direct_call ev)) (trace r)
         = [EvRESTConfigFromKubeConfig [Byte.x7b; Byte.x7d];
            EvNewDialer newDialer;
            EvNewForConfig {| rest.Host := "https://demo:6443";
                              rest.Dial := Some newDialer |}])
  /\ (let r := talosconfigFromWorkloadCluster PerLoop (Demo.world [Demo.cfgA]) Demo.demo
                 [Demo.m4] in
      outcome r = Err (ErrNoNodeRef "m4")
      /\ List.filter (fun ev => negb (is_network_call ev || is_direct_call ev)) (trace r)
         = [EvRESTConfigFromKubeConfig [Byte.x7b; Byte.x7d];
            EvNewDialer newDialer;
            EvNewForConfig {| rest.Host := "https://demo:6443";
                              rest.Dial := Some newDialer |}]).
Proof.
  split; [|split; split; try (vm_compute; reflexivity); by eexists].
  intros sem w cluster machines. unfold talosconfigFromWorkloadCluster.
  destruct machines as [|machine rest]; [constructor|].
  apply Forall_trace_bind.
  - destruct (kubeconfigForCluster_trace w cluster) as (tr & -> & Htr).
    constructor; [done|]. eapply Forall_impl; [exact Htr|]. by intros ev [_ ?].
  - intros k. apply Forall_trace_bind; [apply workloadLoop_no_close|].
    intros st. rewrite talosclientNew_cases. by repeat constructor.
Qed.

(** ** Mode selection *)

Lemma machinesLoop_direct_calls (w : World) (machines : list clusterv1.Machine)
    (addrList : list string) (t : option talosconfig.Config) :
  Forall (fun ev => is_direct_call ev = true) (trace (machinesLoop w addrList t machines)).
Proof.
  revert addrList t. induction machines as [|machine rest IH]; intros addrList t; simpl.
  - constructor.
  - destruct (Nat.eqb _ 0); [constructor|].
    apply Forall_trace_bind; [|intros t'; apply IH].
    destruct t as [c|]; [constructor|].
    apply Forall_trace_bind; [|constructor].
    rewrite findTalosConfig_cases. apply lookupWith_direct_calls.
Qed.

Lemma directPath_direct_calls (w : World) (machines : list clusterv1.Machine) :
  Forall (fun ev => is_direct_call ev = true) (trace (directPath w machines)).
Proof.
  unfold directPath. apply Forall_trace_bind; [apply machinesLoop_direct_calls|].
  intros st. rewrite talosclientNew_cases. by repeat constructor.
Qed.

Lemma talosconfigFromWorkloadCluster_head (sem : LoopVar) (w : World)
    (cluster : types.NamespacedName) (machine : clusterv1.Machine)
    (rest : list clusterv1.Machine) :
  head (trace (talosconfigFromWorkloadCluster sem w cluster (machine :: rest))) =
    Some (EvClientGet (kubeconfigKey cluster)).
Proof.
  unfold talosconfigFromWorkloadCluster. rewrite trace_bind.
  by destruct (kubeconfigForCluster_trace w cluster) as (tr & -> & _).
Qed.

(** C6: the mode is decided by the zero test of the init config alone.
    For a non-empty machine list, the call is the indirect path on the
    cluster named by the control plane's namespace and cluster-name label
    exactly when the init config is not the zero value: it then starts with
    the read of that cluster's kubeconfig secret.  It is the direct path
    exactly when the init config is the zero value: all its calls are then
    the list of TalosConfig records, the parse of a talosconfig and the
    client constructor, with no access to a workload cluster. *)
Theorem mode_selection {T} (IsZero : T -> bool) (sem : LoopVar) (w : World)
    (tcp : controlplanev1.TalosControlPlane T) (machines : list clusterv1.Machine) :
  machines <> [] ->
  let r := talosconfigForMachines IsZero sem w tcp machines in
  let cluster :=
    {| types.Namespace := controlplanev1.Namespace tcp;
       types.Name :=
         default "" (controlplanev1.Labels tcp !! "cluster.x-k8s.io/cluster-name") |} in
  (IsZero (controlplanev1.InitConfig tcp) = false <->
     r = talosconfigFromWorkloadCluster sem w cluster machines
     /\ head (trace r) = Some (EvClientGet (kubeconfigKey cluster)))
  /\ (IsZero (controlplanev1.InitConfig tcp) = true <->
        r = directPath w machines
        /\ Forall (fun ev => is_direct_call ev = true) (trace r)).
Proof.
  intros Hne r cluster. destruct machines as [|machine rest]; [done|].
  destruct (IsZero (controlplanev1.InitConfig tcp)) eqn:Hz.
  - assert (r = directPath w (machine :: rest)) as Hr
      by (by apply talosconfigForMachines_direct).
    split.
    + split; [discriminate|]. intros [_ Hhead]. exfalso.
      pose proof (directPath_direct_calls w (machine :: rest)) as Hd.
      rewrite <- Hr in Hd. destruct (trace r) as [|ev tr]; [discriminate|].
      injection Hhead as ->. by apply Forall_cons in Hd as [? _].
    + split; [|done]. intros _. split; [done|].
      rewrite Hr. apply directPath_direct_calls.
  - assert (r = talosconfigFromWorkloadCluster sem w cluster (machine :: rest)) as Hr
      by (by apply talosconfigForMachines_indirect).
    pose proof (talosconfigFromWorkloadCluster_head sem w cluster machine rest) as Hhead.
    rewrite <- Hr in Hhead. split.
    + split; [|done]. by intros _.
    + split; [discriminate|]. intros [_ Hd]. exfalso.
      destruct (trace r) as [|ev tr]; [discriminate|].
      injection Hhead as ->. by apply Forall_cons in Hd as [? _].
Qed.

Lemma mode_selection_witness :
  (Demo.IsZero true = false <->
     talosconfigForMachines Demo.IsZero PerLoop (Demo.world [Demo.cfgA]) (Demo.tcp true)
       [Demo.m1; Demo.m2] =
     talosconfigFromWorkloadCluster PerLoop (Demo.world [Demo.cfgA]) Demo.demo
       [Demo.m1; Demo.m2]
     /\ head (trace (talosconfigForMachines Demo.IsZero PerLoop (Demo.world [Demo.cfgA])
                       (Demo.tcp true) [Demo.m1; Demo.m2])) =
        Some (EvClientGet {| types.Namespace := "ns1"; types.Name := "demo-kubeconfig" |})).
Proof.
  refine (proj1 (mode_selection Demo.IsZero PerLoop (Demo.world [Demo.cfgA])
                   (Demo.tcp true) [Demo.m1; Demo.m2] _)).
  discriminate.
Defined.

(** ** The name in the no-addresses error *)

(** C9: the no-addresses error names the node on the indirect path and the
    machine on the direct path.  For a first machine with no external or
    internal IP address among its own records, the direct path fails with
    the no-addresses error on the machine's name; when that machine's node,
    as the workload cluster returns it for the machine's node reference,
    has no such address either, the indirect path fails with the
    no-addresses error on the node's name (the name of the node reference,
    when the cluster answers with the node asked for).  The two errors
    differ as soon as the two names do. *)
Theorem no_addresses_error_names {T} (IsZero : T -> bool) (sem : LoopVar) (w : World)
    (direct indirect : controlplanev1.TalosControlPlane T)
    (machine : clusterv1.Machine) (rest : list clusterv1.Machine)
    (tr0 : list Event) (k : kubernetesClient)
    (nodeRef : clusterv1.ObjectReference) (node : corev1.Node) :
  IsZero (controlplanev1.InitConfig direct) = true ->
  IsZero (controlplanev1.InitConfig indirect) = false ->
  machineIPs machine = [] ->
  kubeconfigForCluster w (clusterKey indirect) = (tr0, Ok k) ->
  clusterv1.NodeRef machine = Some nodeRef ->
  Nodes_Get w (Clientset k) (clusterv1.Name nodeRef) = inr node ->
  nodeIPs node = [] ->
  outcome (talosconfigForMachines IsZero sem w direct (machine :: rest)) =
    Err (ErrNoAddresses (clusterv1.Name_ machine))
  /\ outcome (talosconfigForMachines IsZero sem w indirect (machine :: rest)) =
       Err (ErrNoAddresses (corev1.Name node))
  /\ (corev1.Name node = clusterv1.Name nodeRef ->
      outcome (talosconfigForMachines IsZero sem w indirect (machine :: rest)) =
        Err (ErrNoAddresses (clusterv1.Name nodeRef)))
  /\ (corev1.Name node <> clusterv1.Name_ machine ->
      outcome (talosconfigForMachines IsZero sem w direct (machine :: rest)) <>
      outcome (talosconfigForMachines IsZero sem w indirect (machine :: rest))).
Proof.
  intros Hd Hi Hips Hk Href Hget Hnips.
  assert (outcome (talosconfigForMachines IsZero sem w direct (machine :: rest)) =
            Err (ErrNoAddresses (clusterv1.Name_ machine))) as H1.
  { rewrite talosconfigForMachines_direct by done.
    unfold directPath. by rewrite machinesLoop_first, Hips. }
  assert (outcome (talosconfigForMachines IsZero sem w indirect (machine :: rest)) =
            Err (ErrNoAddresses (corev1.Name node))) as H2.
  { rewrite talosconfigForMachines_indirect by done.
    rewrite (talosconfigFromWorkloadCluster_cons _ _ _ _ _ _ _ Hk).
    by rewrite (workloadLoop_first_no_address _ _ _ _ _ _ _ Href Hget Hnips). }
  split; [done|]. split; [done|]. split.
  - intros <-. done.
  - intros Hneq. rewrite H1, H2. congruence.
Qed.

Lemma no_addresses_error_names_witness :
  outcome (talosconfigForMachines Demo.IsZero PerLoop (Demo.world [Demo.cfgA])
             (Demo.tcp false) [Demo.m3; Demo.m1]) = Err (ErrNoAddresses "m3")
  /\ outcome (talosconfigForMachines Demo.IsZero PerLoop (Demo.world [Demo.cfgA])
                (Demo.tcp true) [Demo.m3; Demo.m1]) = Err (ErrNoAddresses "node-3").
Proof.
  pose proof (no_addresses_error_names Demo.IsZero PerLoop (Demo.world [Demo.cfgA])
                (Demo.tcp false) (Demo.tcp true) Demo.m3 [Demo.m1]
                (kubeconfigForCluster (Demo.world [Demo.cfgA]) Demo.demo).1
                {| Clientset :=
                     {| kubernetes.config :=
                          {| rest.Host := "https://demo:6443";
                             rest.Dial := Some newDialer |} |};
                   dialer := newDialer |}
                {| clusterv1.Name := "node-3" |}
                {| corev1.Name := "node-3";
                   corev1.Addresses :=
                     [ {| corev1.Type_ := "Hostname"; corev1.Address := "node-3" |} ] |})
    as H.
  destruct H as (H1 & H2 & _); try reflexivity.
  by split.
Defined.

(** * Further properties of the resolver *)

(** ** Where the errors come from *)

Lemma lookupWith_errors (w : World) (machine : clusterv1.Machine)
    (scan : list cabptv1.TalosConfig -> option cabptv1.TalosConfig) (e : error) :
  outcome (lookupWith w machine scan) = Err e ->
  (e = ErrTalosConfigNotFound (clusterv1.Name_ machine)
   /\ exists cfgs, Client_List w (clusterv1.Namespace machine) = inr cfgs
                   /\ scan cfgs = None)
  \/ exists x, e = ErrExternal x.
Proof.
  unfold lookupWith. destruct (Client_List w _) as [x|cfgs]; simpl.
  { intros [= <-]. right. by exists x. }
  destruct (scan cfgs) as [found|] eqn:Hscan; simpl.
  - destruct (FromString w _) as [x|c]; simpl; [|done].
    intros [= <-]. right. by exists x.
  - intros [= <-]. left. split; [done|]. by exists cfgs.
Qed.

Lemma kubeconfigForCluster_errors (w : World) (cluster : types.NamespacedName)
    (e : error) :
  outcome (kubeconfigForCluster w cluster) = Err e -> exists x, e = ErrExternal x.
Proof.
  pose proof (kubeconfigForCluster_cases w cluster) as H. simpl in H.
  destruct (Client_Get w _) as [x|secret].
  { rewrite H. intros [= <-]. by exists x. }
  destruct (RESTConfigFromKubeConfig w _) as [x|config].
  { rewrite H. intros [= <-]. by exists x. }
  destruct (NewForConfig w _) as [x|]; rewrite H; [|done].
  intros [= <-]. by exists x.
Qed.

Lemma talosclientNew_errors (w : World) (eps : list string)
    (t : option talosconfig.Config) (e : error) :
  outcome (talosclientNew w eps t) = Err e -> exists x, e = ErrExternal x.
Proof.
  rewrite talosclientNew_cases. simpl. destruct (talosclient_New w eps t) as [x|]; [|done].
  intros [= <-]. by exists x.
Qed.

(** The errors of the direct loop: no addresses, no credential, or an
    error of a collaborator. *)
Lemma machinesLoop_errors (w : World) (machines : list clusterv1.Machine)
    (addrList : list string) (t : option talosconfig.Config) (e : error) :
  outcome (machinesLoop w addrList t machines) = Err e ->
  match e with
  | ErrNoMachines | ErrNoNodeRef _ => False
  | _ => True
  end.
Proof.
  revert addrList t. induction machines as [|machine rest IH]; intros addrList t; simpl.
  - done.
  - destruct (Nat.eqb _ 0); [by intros [= <-]|].
    rewrite outcome_bind. destruct t as [c|].
    + simpl. apply IH.
    + rewrite outcome_bind, findTalosConfig_cases.
      destruct (outcome (lookupWith w machine _)) as [c|e'] eqn:Hl; simpl; [apply IH|].
      intros [= <-]. by apply lookupWith_errors in Hl as [[-> _]|[x ->]].
Qed.

(** The errors of the indirect loop are never the empty-list error. *)
Lemma workloadLoop_errors (sem : LoopVar) (w : World) (k : kubernetesClient)
    (machines : list clusterv1.Machine) (addrList : list string)
    (t : option talosconfig.Config) :
  outcome (workloadLoop sem w k addrList t machines) <> Err ErrNoMachines.
Proof.
  revert addrList t. induction machines as [|machine rest IH]; intros addrList t; simpl.
  - done.
  - destruct (clusterv1.NodeRef machine) as [nodeRef|]; [|done].
    rewrite outcome_bind. destruct (Nodes_Get w _ _) as [x|node]; simpl; [done|].
    destruct (Nat.eqb _ 0); [done|].
    rewrite outcome_bind. destruct t as [c|].
    + simpl. apply IH.
    + rewrite outcome_bind, findTalosConfigWorkload_cases.
      destruct (outcome (lookupWith w machine _)) as [c|e'] eqn:Hl; simpl; [apply IH|].
      apply lookupWith_errors in Hl as [[-> _]|[x ->]]; done.
Qed.

(** X1: both resolvers fail with the empty-list error exactly when no
    machine is given, whatever the mode; they then make no call at all. *)
Theorem no_machines_iff_empty {T} (IsZero : T -> bool) (sem : LoopVar) (w : World)
    (tcp : controlplanev1.TalosControlPlane T) (cluster : types.NamespacedName)
    (machines : list clusterv1.Machine) :
  (outcome (talosconfigForMachines IsZero sem w tcp machines) = Err ErrNoMachines
   <-> machines = [])
  /\ (outcome (talosconfigFromWorkloadCluster sem w cluster machines) = Err ErrNoMachines
      <-> machines = [])
  /\ talosconfigForMachines IsZero sem w tcp [] = ([], Err ErrNoMachines)
  /\ talosconfigFromWorkloadCluster sem w cluster [] = ([], Err ErrNoMachines).
Proof.
  assert (forall cl m ms,
            outcome (talosconfigFromWorkloadCluster sem w cl (m :: ms))
            <> Err ErrNoMachines) as Hind.
  { intros cl m ms. unfold talosconfigFromWorkloadCluster. rewrite outcome_bind.
    destruct (outcome (kubeconfigForCluster w cl)) as [k|e] eqn:Hk.
    - rewrite outcome_bind.
      pose proof (workloadLoop_errors sem w k (m :: ms) [] None) as Hl.
      destruct (outcome (workloadLoop sem w k [] None (m :: ms))) as [st|e]; [|congruence].
      intros He. by apply talosclientNew_errors in He as [x ?].
    - intros [= ->]. by apply kubeconfigForCluster_errors in Hk as [x ?]. }
  split; [|split; [|done]].
  - destruct machines as [|m ms]; [done|]. split; [|done]. intros H. exfalso.
    destruct (IsZero (controlplanev1.InitConfig tcp)) eqn:Hz.
    + rewrite talosconfigForMachines_direct in H by done.
      unfold directPath in H. rewrite outcome_bind in H.
      destruct (outcome (machinesLoop w [] None (m :: ms))) as [st|e] eqn:Hl.
      * by apply talosclientNew_errors in H as [x ?].
      * injection H as ->. by apply machinesLoop_errors in Hl.
    + rewrite talosconfigForMachines_indirect in H by done. by apply Hind in H.
  - destruct machines as [|m ms]; [done|]. split; [|done]. intros H. by apply Hind in H.
Qed.

Lemma no_machines_iff_empty_witness :
  outcome (talosconfigForMachines Demo.IsZero PerLoop (Demo.world []) (Demo.tcp true) [])
  = Err ErrNoMachines.
Proof.
  apply (proj1 (no_machines_iff_empty Demo.IsZero PerLoop (Demo.world []) (Demo.tcp true)
                  Demo.demo [])).
  reflexivity.
Defined.


(** ** What a success tells *)

(** What the direct path has done when it succeeds. *)
Lemma directPath_success (w : World) (machine : clusterv1.Machine)
    (rest : list clusterv1.Machine) (tr : list Event) (client : talosclient.Client) :
  directPath w (machine :: rest) = (tr, Ok client) ->
  exists cfgs found t,
    machineIPs machine <> []
    /\ Client_List w (clusterv1.Namespace machine) = inr cfgs
    /\ scanBreakOuter (clusterv1.Name_ machine) cfgs = Some found
    /\ FromString w (cabptv1.TalosConfig_ found) = inr t
    /\ client = {| talosclient.Endpoints := concat (map machineIPs (machine :: rest));
                   talosclient.Config := Some t |}.
Proof.
  intros Hr. destruct (machineIPs machine) as [|a l] eqn:Hips.
  { unfold directPath in Hr. rewrite machinesLoop_first, Hips in Hr. discriminate. }
  rewrite directPath_first_has_address in Hr by (by rewrite Hips).
  rewrite findTalosConfig_cases in Hr. unfold lookupWith in Hr.
  destruct (Client_List w _) as [x|cfgs] eqn:Hlist; [discriminate|].
  destruct (scanBreakOuter _ cfgs) as [found|] eqn:Hscan; [|discriminate].
  simpl in Hr. destruct (FromString w _) as [x|t] eqn:Hparse; [discriminate|].
  rewrite bind_Ok, talosclientNew_cases in Hr. simpl in Hr.
  destruct (talosclient_New w _ _); [discriminate|].
  injection Hr as _ <-. exists cfgs, found, t. simpl. rewrite Hips. by repeat split.
Qed.

(** X2: a direct-mode call that succeeds has taken the credential of the
    first machine and the addresses of all machines.  The first machine
    has an external or internal IP address; the records of its namespace
    were listed, and the talosconfig of the first record it owns was
    parsed; the client holds that credential, and its endpoints are the
    external and internal IP addresses of all the machines, in order, a
    list that is not empty. *)
Theorem direct_success_inversion {T} (IsZero : T -> bool) (sem : LoopVar) (w : World)
    (tcp : controlplanev1.TalosControlPlane T) (machines : list clusterv1.Machine)
    (tr : list Event) (client : talosclient.Client) :
  IsZero (controlplanev1.InitConfig tcp) = true ->
  talosconfigForMachines IsZero sem w tcp machines = (tr, Ok client) ->
  exists machine rest cfgs found t,
    machines = machine :: rest
    /\ machineIPs machine <> []
    /\ Client_List w (clusterv1.Namespace machine) = inr cfgs
    /\ scanBreakOuter (clusterv1.Name_ machine) cfgs = Some found
    /\ FromString w (cabptv1.TalosConfig_ found) = inr t
    /\ talosclient.Config client = Some t
    /\ talosclient.Endpoints client = concat (map machineIPs machines)
    /\ talosclient.Endpoints client <> [].
Proof.
  intros Hz Hr. destruct machines as [|machine rest]; [discriminate|].
  rewrite talosconfigForMachines_direct in Hr by done.
  apply directPath_success in Hr as (cfgs & found & t & Hips & Hlist & Hscan & Hparse & ->).
  exists machine, rest, cfgs, found, t. simpl. repeat split; try done.
  by destruct (machineIPs machine).
Qed.

Lemma direct_success_inversion_witness :
  exists machine rest cfgs found t,
    [Demo.m1; Demo.m3] = machine :: rest
    /\ machineIPs machine <> []
    /\ Client_List (Demo.world [Demo.cfgC; Demo.cfgB]) (clusterv1.Namespace machine)
       = inr cfgs
    /\ scanBreakOuter (clusterv1.Name_ machine) cfgs = Some found
    /\ FromString (Demo.world [Demo.cfgC; Demo.cfgB]) (cabptv1.TalosConfig_ found) = inr t
    /\ Some {| talosconfig.Context := "context: b" |} = Some t
    /\ ["10.0.0.1"] = concat (map machineIPs [Demo.m1; Demo.m3])
    /\ ["10.0.0.1"] <> [].
Proof.
  refine (direct_success_inversion Demo.IsZero PerLoop (Demo.world [Demo.cfgC; Demo.cfgB])
            (Demo.tcp false) [Demo.m1; Demo.m3] _
            {| talosclient.Endpoints := ["10.0.0.1"];
               talosclient.Config := Some {| talosconfig.Context := "context: b" |} |}
            _ _).
  - reflexivity.
  - vm_compute. reflexivity.
Defined.

(** What the indirect loop has done when it succeeds: every machine had a
    node reference, its node was fetched, and the addresses are those of
    the nodes, in machine order, after those held at the start. *)
Lemma workloadLoop_Ok (sem : LoopVar) (w : World) (k : kubernetesClient)
    (machines : list clusterv1.Machine) (addrList : list string)
    (t : option talosconfig.Config) (tr : list Event)
    (st : list string * option talosconfig.Config) :
  workloadLoop sem w k addrList t machines = (tr, Ok st) ->
  exists nodes,
    Forall2 (fun m node =>
               exists nodeRef,
                 clusterv1.NodeRef m = Some nodeRef
                 /\ Nodes_Get w (Clientset k) (clusterv1.Name nodeRef) = inr node)
            machines nodes
    /\ st.1 = addrList ++ concat (map nodeIPs nodes)
    /\ (addrList <> [] \/ machines <> [] -> st.1 <> [])
    /\ (is_Some t \/ machines <> [] -> is_Some st.2).
Proof.
  revert addrList t tr. induction machines as [|machine rest IH]; intros addrList t tr; simpl.
  - intros [= <- <-]. exists []. simpl. rewrite app_nil_r.
    split; [constructor|]. split; [done|]. split; by intros [?|?].
  - destruct (clusterv1.NodeRef machine) as [nodeRef|] eqn:Href; [|discriminate].
    destruct (Nodes_Get w _ _) as [x|node] eqn:Hget; [discriminate|].
    simpl. rewrite bind_Ok, appendNodeIPs_spec.
    destruct (Nat.eqb _ 0) eqn:Hlen; [discriminate|].
    assert (addrList ++ nodeIPs node <> []) as Hne.
    { intros Hnil. rewrite Hnil in Hlen. discriminate. }
    destruct (match t with Some _ => _ | None => _ end) as [tr1 [t'|e]] eqn:Ht;
      [|discriminate].
    assert (is_Some t') as Hsome.
    { destruct t as [c|].
      - injection Ht as _ <-. by eexists.
      - destruct (findTalosConfigWorkload sem w machine) as [tr2 [c|e]]; [|discriminate].
        rewrite bind_Ok in Ht. injection Ht as _ <-. by eexists. }
    rewrite bind_Ok. destruct (workloadLoop sem w k _ t' rest) as [tr2 r2] eqn:Hrest.
    simpl. intros [= _ ->]. apply IH in Hrest as (nodes & Hall & Hst & Hne' & Hsome').
    exists (node :: nodes). split; [|split; [|split]].
    + constructor; [by exists nodeRef|done].
    + rewrite Hst. simpl. by rewrite <- app_assoc.
    + intros _. apply Hne'. by left.
    + intros _. apply Hsome'. by left.
Qed.

(** X3: an indirect-mode call that succeeds has reached every machine's
    node.  Workload-cluster access succeeded; every machine has a node
    reference, and the node of that name was fetched from the workload
    cluster; the client's endpoints are the external and internal IP
    addresses of these nodes, by machine order and then by order of the
    node's address records, a list that is not empty; the client holds a
    credential. *)
Theorem indirect_success_inversion (sem : LoopVar) (w : World)
    (cluster : types.NamespacedName) (machines : list clusterv1.Machine)
    (tr : list Event) (client : talosclient.Client) :
  talosconfigFromWorkloadCluster sem w cluster machines = (tr, Ok client) ->
  exists tr0 k nodes,
    kubeconfigForCluster w cluster = (tr0, Ok k)
    /\ Forall2 (fun m node =>
                  exists nodeRef,
                    clusterv1.NodeRef m = Some nodeRef
                    /\ Nodes_Get w (Clientset k) (clusterv1.Name nodeRef) = inr node)
               machines nodes
    /\ talosclient.Endpoints client = concat (map nodeIPs nodes)
    /\ talosclient.Endpoints client <> []
    /\ is_Some (talosclient.Config client).
Proof.
  unfold talosconfigFromWorkloadCluster.
  destruct machines as [|machine rest]; [discriminate|].
  destruct (kubeconfigForCluster w cluster) as [tr0 [k|e]] eqn:Hk; [|discriminate].
  rewrite bind_Ok.
  destruct (workloadLoop sem w k [] None (machine :: rest)) as [tr1 [st|e]] eqn:Hloop;
    [|discriminate].
  rewrite bind_Ok, talosclientNew_cases. simpl.
  destruct (talosclient_New w _ _); [discriminate|]. intros [= _ <-]. simpl.
  apply workloadLoop_Ok in Hloop as (nodes & Hall & Hst & Hne & Hsome).
  exists tr0, k, nodes. split; [done|]. split; [done|]. split; [done|].
  split; [apply Hne|apply Hsome]; by right.
Qed.

Lemma indirect_success_inversion_witness :
  exists tr0 k nodes,
    kubeconfigForCluster (Demo.world [Demo.cfgA]) Demo.demo = (tr0, Ok k)
    /\ Forall2 (fun m node =>
                  exists nodeRef,
                    clusterv1.NodeRef m = Some nodeRef
                    /\ Nodes_Get (Demo.world [Demo.cfgA]) (Clientset k)
                                 (clusterv1.Name nodeRef) = inr node)
               [Demo.m1; Demo.m3; Demo.m2] nodes
    /\ ["10.0.0.1"; "10.0.0.2"; "192.0.2.2"] = concat (map nodeIPs nodes)
    /\ ["10.0.0.1"; "10.0.0.2"; "192.0.2.2"] <> []
    /\ is_Some (Some {| talosconfig.Context := "context: a" |}).
Proof.
  refine (indirect_success_inversion PerLoop (Demo.world [Demo.cfgA]) Demo.demo
            [Demo.m1; Demo.m3; Demo.m2] _
            {| talosclient.Endpoints := ["10.0.0.1"; "10.0.0.2"; "192.0.2.2"];
               talosclient.Config := Some {| talosconfig.Context := "context: a" |} |}
            _).
  vm_compute. reflexivity.
Defined.

(** ** What an error tells *)

Lemma outcome_bind_Ok {A B} (tr : list Event) (a : A) (f : A -> M B) :
  outcome (bind (tr, Ok a) f) = outcome (f a).
Proof. by rewrite outcome_bind. Qed.

(** X4: the no-addresses error can only come from the first machine.  In
    direct mode it means that the first machine has no external or internal
    IP address, and it names that machine.  In indirect mode it means that
    workload-cluster access succeeded, that the first machine has a node
    reference, and that the node fetched for it has no such address; it
    names that node. *)
Theorem no_addresses_only_from_first {T} (IsZero : T -> bool) (sem : LoopVar) (w : World)
    (tcp : controlplanev1.TalosControlPlane T) (cluster : types.NamespacedName)
    (machines : list clusterv1.Machine) (x : string) :
  (IsZero (controlplanev1.InitConfig tcp) = true ->
   outcome (talosconfigForMachines IsZero sem w tcp machines) = Err (ErrNoAddresses x) ->
   exists machine rest,
     machines = machine :: rest /\ machineIPs machine = []
     /\ x = clusterv1.Name_ machine)
  /\ (outcome (talosconfigFromWorkloadCluster sem w cluster machines)
        = Err (ErrNoAddresses x) ->
      exists machine rest tr0 k nodeRef node,
        machines = machine :: rest
        /\ kubeconfigForCluster w cluster = (tr0, Ok k)
        /\ clusterv1.NodeRef machine = Some nodeRef
        /\ Nodes_Get w (Clientset k) (clusterv1.Name nodeRef) = inr node
        /\ nodeIPs node = []
        /\ x = corev1.Name node).
Proof.
  split.
  - intros Hz Hr. destruct machines as [|machine rest]; [discriminate|].
    exists machine, rest. split; [done|].
    rewrite talosconfigForMachines_direct in Hr by done.
    destruct (machineIPs machine) as [|a l] eqn:Hips.
    + unfold directPath in Hr. rewrite machinesLoop_first, Hips in Hr.
      by injection Hr as <-.
    + exfalso. rewrite directPath_first_has_address in Hr by (by rewrite Hips).
      rewrite outcome_bind, findTalosConfig_cases in Hr.
      pose proof (lookupWith_not_ErrNoAddresses w machine
                    (scanBreakOuter (clusterv1.Name_ machine)) x) as Hl.
      destruct (outcome (lookupWith w machine _)) as [c|e]; [|congruence].
      by apply talosclientNew_errors in Hr as [? ?].
  - intros Hr. destruct machines as [|machine rest]; [discriminate|].
    unfold talosconfigFromWorkloadCluster in Hr.
    destruct (kubeconfigForCluster w cluster) as [tr0 [k|e]] eqn:Hk.
    2:{ rewrite bind_Err in Hr. injection Hr as ->.
        pose proof (kubeconfigForCluster_errors w cluster (ErrNoAddresses x)) as He.
        rewrite Hk in He. by destruct (He eq_refl). }
    rewrite outcome_bind_Ok, outcome_bind in Hr.
    destruct (outcome (workloadLoop sem w k [] None (machine :: rest))) as [st|e] eqn:Hloop.
    { by apply talosclientNew_errors in Hr as [? ?]. }
    injection Hr as ->. simpl in Hloop.
    destruct (clusterv1.NodeRef machine) as [nodeRef|] eqn:Href; [|discriminate].
    rewrite outcome_bind in Hloop.
    destruct (Nodes_Get w _ _) as [e|node] eqn:Hget; simpl in Hloop; [discriminate|].
    rewrite appendNodeIPs_spec in Hloop. simpl in Hloop.
    destruct (nodeIPs node) as [|a l] eqn:Hips; simpl in Hloop.
    + injection Hloop as <-. by exists machine, rest, tr0, k, nodeRef, node.
    + exfalso. rewrite outcome_bind, outcome_bind, findTalosConfigWorkload_cases in Hloop.
      pose proof (lookupWith_not_ErrNoAddresses w machine
        (fun cfgs => scanBreakInner sem (clusterv1.Name_ machine) cfgs None) x) as Hl.
      destruct (outcome (lookupWith w machine _)) as [c|e]; simpl in Hloop; [|congruence].
      by apply (workloadLoop_not_ErrNoAddresses sem w k rest (a :: l) (Some c) x).
Qed.

Lemma no_addresses_only_from_first_witness :
  exists machine rest,
    [Demo.m3; Demo.m1] = machine :: rest /\ machineIPs machine = []
    /\ "m3" = clusterv1.Name_ machine.
Proof.
  refine (proj1 (no_addresses_only_from_first Demo.IsZero PerLoop (Demo.world [Demo.cfgA])
                   (Demo.tcp false) Demo.demo [Demo.m3; Demo.m1] "m3") _ _).
  - reflexivity.
  - vm_compute. reflexivity.
Defined.

Lemma workloadLoop_ErrNoNodeRef (sem : LoopVar) (w : World) (k : kubernetesClient)
    (machines : list clusterv1.Machine) (addrList : list string)
    (t : option talosconfig.Config) (x : string) :
  outcome (workloadLoop sem w k addrList t machines) = Err (ErrNoNodeRef x) ->
  exists pre machine post,
    machines = pre ++ machine :: post
    /\ Forall (fun m => is_Some (clusterv1.NodeRef m)) pre
    /\ clusterv1.NodeRef machine = None
    /\ x = clusterv1.Name_ machine.
Proof.
  revert addrList t. induction machines as [|machine rest IH]; intros addrList t; simpl.
  - discriminate.
  - destruct (clusterv1.NodeRef machine) as [nodeRef|] eqn:Href.
    2:{ intros [= <-]. by exists [], machine, rest. }
    assert (forall a t', outcome (workloadLoop sem w k a t' rest) = Err (ErrNoNodeRef x) ->
              exists pre m post,
                machine :: rest = pre ++ m :: post
                /\ Forall (fun m => is_Some (clusterv1.NodeRef m)) pre
                /\ clusterv1.NodeRef m = None /\ x = clusterv1.Name_ m) as Hrest.
    { intros a t' H. apply IH in H as (pre & m & post & -> & Hpre & Hm & Hx).
      exists (machine :: pre), m, post. split; [done|]. split; [|done].
      constructor; [by rewrite Href|done]. }
    rewrite outcome_bind. destruct (Nodes_Get w _ _) as [e|node]; simpl; [discriminate|].
    destruct (Nat.eqb _ 0); [discriminate|].
    rewrite outcome_bind. destruct t as [c|]; simpl; [apply Hrest|].
    rewrite outcome_bind, findTalosConfigWorkload_cases.
    destruct (outcome (lookupWith w machine _)) as [c|e] eqn:Hl; simpl; [apply Hrest|].
    intros [= ->]. by apply lookupWith_errors in Hl as [[? _]|[? ?]].
Qed.

(** X5: the machine-not-joined error belongs to the indirect path and
    names the first machine without node reference.  In direct mode it is
    never returned, also for machines without node reference.  In indirect
    mode it names a machine of the list that has no node reference, all the
    machines before it having one. *)
Theorem no_node_ref_error_names_first_unjoined {T} (IsZero : T -> bool) (sem : LoopVar)
    (w : World) (tcp : controlplanev1.TalosControlPlane T)
    (cluster : types.NamespacedName) (machines : list clusterv1.Machine) (x : string) :
  (IsZero (controlplanev1.InitConfig tcp) = true ->
   outcome (talosconfigForMachines IsZero sem w tcp machines) <> Err (ErrNoNodeRef x))
  /\ (outcome (talosconfigFromWorkloadCluster sem w cluster machines)
        = Err (ErrNoNodeRef x) ->
      exists pre machine post,
        machines = pre ++ machine :: post
        /\ Forall (fun m => is_Some (clusterv1.NodeRef m)) pre
        /\ clusterv1.NodeRef machine = None
        /\ x = clusterv1.Name_ machine).
Proof.
  split.
  - intros Hz Hr. destruct machines as [|machine rest]; [discriminate|].
    rewrite talosconfigForMachines_direct in Hr by done.
    unfold directPath in Hr. rewrite outcome_bind in Hr.
    destruct (outcome (machinesLoop w [] None (machine :: rest))) as [st|e] eqn:Hl.
    + by apply talosclientNew_errors in Hr as [? ?].
    + injection Hr as ->. by apply machinesLoop_errors in Hl.
  - intros Hr. destruct machines as [|machine rest]; [discriminate|].
    unfold talosconfigFromWorkloadCluster in Hr. rewrite outcome_bind in Hr.
    destruct (outcome (kubeconfigForCluster w cluster)) as [k|e] eqn:Hk.
    2:{ injection Hr as ->. by apply kubeconfigForCluster_errors in Hk as [? ?]. }
    rewrite outcome_bind in Hr.
    destruct (outcome (workloadLoop sem w k [] None (machine :: rest))) as [st|e] eqn:Hloop.
    { by apply talosclientNew_errors in Hr as [? ?]. }
    injection Hr as ->. by apply workloadLoop_ErrNoNodeRef in Hloop.
Qed.

Lemma no_node_ref_error_names_first_unjoined_witness :
  exists pre machine post,
    [Demo.m1; Demo.m4; Demo.m2] = pre ++ machine :: post
    /\ Forall (fun m => is_Some (clusterv1.NodeRef m)) pre
    /\ clusterv1.NodeRef machine = None
    /\ "m4" = clusterv1.Name_ machine.
Proof.
  refine (proj2 (no_node_ref_error_names_first_unjoined Demo.IsZero PerLoop
                   (Demo.world [Demo.cfgA]) (Demo.tcp true) Demo.demo
                   [Demo.m1; Demo.m4; Demo.m2] "m4") _).
  vm_compute. reflexivity.
Defined.

(** ** The calls made, and their order *)

Lemma filter_direct_calls_nodes_get (tr : list Event) :
  Forall (fun ev => is_direct_call ev = true) tr -> List.filter is_nodes_get tr = [].
Proof.
  induction 1 as [|ev tr Hev _ IH]; simpl; [done|].
  rewrite IH. by destruct ev.
Qed.

Lemma kubeconfigForCluster_filter (w : World) (cluster : types.NamespacedName) :
  List.filter is_nodes_get (trace (kubeconfigForCluster w cluster)) = []
  /\ List.filter is_credential_call (trace (kubeconfigForCluster w cluster)) = [].
Proof.
  pose proof (kubeconfigForCluster_cases w cluster) as H. simpl in H.
  destruct (Client_Get w _) as [x|secret]; [by rewrite H|].
  destruct (RESTConfigFromKubeConfig w _) as [x|config]; [by rewrite H|].
  destruct (NewForConfig w _) as [x|]; by rewrite H.
Qed.

Lemma workloadLoop_nodes_get (sem : LoopVar) (w : World) (k : kubernetesClient)
    (machines : list clusterv1.Machine) (addrList : list string)
    (t : option talosconfig.Config) :
  exists pre post,
    machines = pre ++ post
    /\ Forall (fun m => is_Some (clusterv1.NodeRef m)) pre
    /\ List.filter is_nodes_get (trace (workloadLoop sem w k addrList t machines))
       = map EvNodesGet (nodeRefNames pre).
Proof.
  revert addrList t. induction machines as [|machine rest IH]; intros addrList t.
  { by exists [], []. }
  simpl. destruct (clusterv1.NodeRef machine) as [nodeRef|] eqn:Href.
  2:{ by exists [], (machine :: rest). }
  assert (nodeRefNames [machine] = [clusterv1.Name nodeRef]) as Hone.
  { unfold nodeRefNames. simpl. by rewrite Href. }
  assert (Forall (fun m => is_Some (clusterv1.NodeRef m)) [machine]) as Hm.
  { constructor; [by rewrite Href|constructor]. }
  rewrite trace_bind. destruct (Nodes_Get w _ _) as [x|node]; simpl.
  { exists [machine], rest. by rewrite Hone. }
  destruct (Nat.eqb _ 0).
  { exists [machine], rest. by rewrite Hone. }
  rewrite trace_bind.
  set (look := match t with Some _ => _ | None => _ end).
  assert (List.filter is_nodes_get (trace look) = []) as Hlook.
  { unfold look. destruct t as [c|]; [done|].
    rewrite trace_bind, findTalosConfigWorkload_cases.
    rewrite List.filter_app, (filter_direct_calls_nodes_get _ (lookupWith_direct_calls _ _ _)).
    by destruct (outcome (lookupWith w machine _)). }
  rewrite List.filter_app, Hlook. simpl.
  destruct (outcome look) as [t'|e].
  - destruct (IH (appendNodeIPs addrList (corev1.Addresses node)) t')
      as (pre & post & -> & Hpre & Heq).
    exists (machine :: pre), post. split; [done|]. split; [by constructor; [rewrite Href|]|].
    rewrite Heq. unfold nodeRefNames. simpl. by rewrite Href.
  - exists [machine], rest. by rewrite Hone.
Qed.

(** X6: the nodes are fetched in machine order, one fetch per machine, by
    the name of the machine's node reference.  The fetches of an
    indirect-mode call are those of an initial part of the machine list,
    all of whose machines have a node reference: no node is fetched twice
    for one machine, out of order, or under another name. *)
Theorem nodes_fetched_in_machine_order (sem : LoopVar) (w : World)
    (cluster : types.NamespacedName) (machines : list clusterv1.Machine) :
  exists pre post,
    machines = pre ++ post
    /\ Forall (fun m => is_Some (clusterv1.NodeRef m)) pre
    /\ List.filter is_nodes_get
         (trace (talosconfigFromWorkloadCluster sem w cluster machines))
       = map EvNodesGet
             (omap (fun m => option_map clusterv1.Name (clusterv1.NodeRef m)) pre).
Proof.
  unfold talosconfigFromWorkloadCluster. destruct machines as [|machine rest].
  { by exists [], []. }
  rewrite trace_bind, List.filter_app, (proj1 (kubeconfigForCluster_filter w cluster)).
  destruct (outcome (kubeconfigForCluster w cluster)) as [k|e]; [|by exists [], (machine :: rest)].
  rewrite trace_bind, List.filter_app.
  destruct (workloadLoop_nodes_get sem w k (machine :: rest) [] None)
    as (pre & post & Heq & Hpre & Hf).
  exists pre, post. split; [done|]. split; [done|]. rewrite Hf.
  destruct (outcome (workloadLoop sem w k [] None (machine :: rest))) as [st|e].
  - rewrite talosclientNew_cases. cbn [trace fst List.filter is_nodes_get].
    by rewrite app_nil_r.
  - cbn [List.filter]. by rewrite app_nil_r.
Qed.

Lemma lookupWith_trace_shape (w : World) (machine : clusterv1.Machine)
    (scan : list cabptv1.TalosConfig -> option cabptv1.TalosConfig) :
  exists s,
    trace (lookupWith w machine scan)
      `prefix_of` [EvClientList (clusterv1.Namespace machine); EvFromString s]
    /\ List.filter is_credential_call (trace (lookupWith w machine scan))
       = trace (lookupWith w machine scan).
Proof.
  unfold lookupWith. destruct (Client_List w _) as [x|cfgs].
  { exists "". split; [by eexists|done]. }
  destruct (scan cfgs) as [found|].
  - exists (cabptv1.TalosConfig_ found). destruct (FromString w _); (split; [by exists []|done]).
  - exists "". split; [by eexists|done].
Qed.

Lemma workloadLoop_credential_held (sem : LoopVar) (w : World) (k : kubernetesClient)
    (machines : list clusterv1.Machine) (addrList : list string)
    (c : talosconfig.Config) :
  List.filter is_credential_call
    (trace (workloadLoop sem w k addrList (Some c) machines)) = [].
Proof.
  revert addrList. induction machines as [|machine rest IH]; intros addrList; simpl; [done|].
  destruct (clusterv1.NodeRef machine) as [nodeRef|]; [|done].
  rewrite trace_bind. destruct (Nodes_Get w _ _) as [x|node]; simpl; [done|].
  destruct (Nat.eqb _ 0); [done|].
  rewrite bind_ret. apply IH.
Qed.

(** X7: the credential is looked up once, for the first machine, and
    reused.  In either mode the credential calls of a resolver call are, at
    most, one list of the TalosConfig records, in the namespace of the first
    machine, followed by one parse: the namespaces and names of the later
    machines play no part in it. *)
Theorem credential_looked_up_once {T} (IsZero : T -> bool) (sem : LoopVar) (w : World)
    (tcp : controlplanev1.TalosControlPlane T)
    (machine : clusterv1.Machine) (rest : list clusterv1.Machine) :
  exists s,
    List.filter is_credential_call
      (trace (talosconfigForMachines IsZero sem w tcp (machine :: rest)))
    `prefix_of` [EvClientList (clusterv1.Namespace machine); EvFromString s].
Proof.
  destruct (IsZero (controlplanev1.InitConfig tcp)) eqn:Hz.
  - rewrite talosconfigForMachines_direct by done.
    destruct (machineIPs machine) as [|a l] eqn:Hips.
    { unfold directPath. rewrite machinesLoop_first, Hips. exists "". by eexists. }
    rewrite directPath_first_has_address by (by rewrite Hips).
    rewrite trace_bind, findTalosConfig_cases, List.filter_app.
    destruct (lookupWith_trace_shape w machine (scanBreakOuter (clusterv1.Name_ machine)))
      as (s & Hpre & ->).
    exists s. destruct (outcome (lookupWith w machine _)) as [c|e].
    + rewrite talosclientNew_cases. simpl. by rewrite app_nil_r.
    + simpl. by rewrite app_nil_r.
  - rewrite talosconfigForMachines_indirect by done.
    unfold talosconfigFromWorkloadCluster.
    rewrite trace_bind, List.filter_app, (proj2 (kubeconfigForCluster_filter w _)).
    destruct (outcome (kubeconfigForCluster w _)) as [k|e]; [|exists ""; by eexists].
    rewrite trace_bind, List.filter_app.
    assert (List.filter is_credential_call
              match outcome (workloadLoop sem w k [] None (machine :: rest)) with
              | Ok a => trace (talosclientNew w a.1 a.2)
              | Err _ => []
              end = []) as ->.
    { destruct (outcome _) as [st|e]; [|done]. by rewrite talosclientNew_cases. }
    rewrite app_nil_r. simpl.
    destruct (clusterv1.NodeRef machine) as [nodeRef|]; [|exists ""; by eexists].
    rewrite trace_bind. destruct (Nodes_Get w _ _) as [x|node]; simpl;
      [exists ""; by eexists|].
    destruct (Nat.eqb _ 0); [exists ""; by eexists|].
    rewrite bind_assoc, trace_bind, findTalosConfigWorkload_cases, List.filter_app.
    destruct (lookupWith_trace_shape w machine
                (fun cfgs => scanBreakInner sem (clusterv1.Name_ machine) cfgs None))
      as (s & Hpre & ->).
    exists s. destruct (outcome (lookupWith w machine _)) as [c|e].
    + rewrite bind_ret, workloadLoop_credential_held. by rewrite app_nil_r.
    + simpl. by rewrite app_nil_r.
Qed.

(** ** What each mode reads *)

Lemma machinesLoop_withNodeRef (w : World)
    (f : clusterv1.Machine -> option clusterv1.ObjectReference)
    (machines : list clusterv1.Machine) (addrList : list string)
    (t : option talosconfig.Config) :
  machinesLoop w addrList t (map (fun m => withNodeRef (f m) m) machines)
  = machinesLoop w addrList t machines.
Proof.
  revert addrList t. induction machines as [|machine rest IH]; intros addrList t; [done|].
  cbn [map machinesLoop]. change (clusterv1.Addresses (withNodeRef _ machine))
    with (clusterv1.Addresses machine).
  destruct (Nat.eqb _ 0); [done|].
  change (findTalosConfig w (withNodeRef (f machine) machine))
    with (findTalosConfig w machine).
  destruct (match t with Some _ => _ | None => _ end) as [tr [t'|e]]; [|done].
  by rewrite !bind_Ok, IH.
Qed.

Lemma workloadLoop_withAddresses (sem : LoopVar) (w : World) (k : kubernetesClient)
    (g : clusterv1.Machine -> list clusterv1.MachineAddress)
    (machines : list clusterv1.Machine) (addrList : list string)
    (t : option talosconfig.Config) :
  workloadLoop sem w k addrList t (map (fun m => withAddresses (g m) m) machines)
  = workloadLoop sem w k addrList t machines.
Proof.
  revert addrList t. induction machines as [|machine rest IH]; intros addrList t; [done|].
  cbn [map workloadLoop]. change (clusterv1.NodeRef (withAddresses _ machine))
    with (clusterv1.NodeRef machine).
  destruct (clusterv1.NodeRef machine) as [nodeRef|]; [|done].
  destruct (call _ (Nodes_Get w _ _)) as [tr [node|e]]; [|done].
  rewrite !bind_Ok. destruct (Nat.eqb _ 0); [done|].
  change (findTalosConfigWorkload sem w (withAddresses (g machine) machine))
    with (findTalosConfigWorkload sem w machine).
  destruct (match t with Some _ => _ | None => _ end) as [tr' [t'|e]]; [|done].
  by rewrite !bind_Ok, IH.
Qed.

(** X8: each mode reads its own source of addresses and nothing of the
    other's.  In direct mode the node references of the machines are not
    read: replacing or removing them changes neither the result nor the
    calls made.  In indirect mode the address records of the machines are
    not read: replacing them changes neither the result nor the calls. *)
Theorem each_mode_reads_its_own_source {T} (IsZero : T -> bool) (sem : LoopVar)
    (w : World) (tcp : controlplanev1.TalosControlPlane T)
    (machines : list clusterv1.Machine) :
  (IsZero (controlplanev1.InitConfig tcp) = true ->
   forall f : clusterv1.Machine -> option clusterv1.ObjectReference,
     talosconfigForMachines IsZero sem w tcp (map (fun m => withNodeRef (f m) m) machines)
     = talosconfigForMachines IsZero sem w tcp machines)
  /\ (IsZero (controlplanev1.InitConfig tcp) = false ->
      forall g : clusterv1.Machine -> list clusterv1.MachineAddress,
        talosconfigForMachines IsZero sem w tcp
          (map (fun m => withAddresses (g m) m) machines)
        = talosconfigForMachines IsZero sem w tcp machines).
Proof.
  split.
  - intros Hz f. destruct machines as [|machine rest]; [done|].
    cbn [map]. rewrite !talosconfigForMachines_direct by done. unfold directPath.
    by rewrite (machinesLoop_withNodeRef w f (machine :: rest)).
  - intros Hz g. rewrite !talosconfigForMachines_indirect by done.
    destruct machines as [|machine rest]; [done|].
    unfold talosconfigFromWorkloadCluster. cbn [map].
    destruct (kubeconfigForCluster w (clusterKey tcp)) as [tr [k|e]]; [|done].
    rewrite !bind_Ok. by rewrite (workloadLoop_withAddresses sem w k g (machine :: rest)).
Qed.

Lemma each_mode_reads_its_own_source_witness :
  talosconfigForMachines Demo.IsZero PerLoop (Demo.world [Demo.cfgA]) (Demo.tcp false)
    (map (fun m => withNodeRef None m) [Demo.m1; Demo.m2])
  = talosconfigForMachines Demo.IsZero PerLoop (Demo.world [Demo.cfgA]) (Demo.tcp false)
      [Demo.m1; Demo.m2]
  /\ talosconfigForMachines Demo.IsZero PerLoop (Demo.world [Demo.cfgA]) (Demo.tcp true)
       (map (fun m => withAddresses [] m) [Demo.m1; Demo.m2])
     = talosconfigForMachines Demo.IsZero PerLoop (Demo.world [Demo.cfgA]) (Demo.tcp true)
         [Demo.m1; Demo.m2].
Proof.
  split.
  - apply (proj1 (each_mode_reads_its_own_source Demo.IsZero PerLoop (Demo.world [Demo.cfgA])
                    (Demo.tcp false) [Demo.m1; Demo.m2]) eq_refl (fun _ => None)).
  - apply (proj2 (each_mode_reads_its_own_source Demo.IsZero PerLoop (Demo.world [Demo.cfgA])
                    (Demo.tcp true) [Demo.m1; Demo.m2]) eq_refl (fun _ => [])).
Defined.

(** ** The name of the kubeconfig secret *)

Lemma append_length (s t : string) :
  String.length (s +:+ t) = String.length s + String.length t.
Proof.
  induction s as [|a s IH]; [done|].
  change (String a s +:+ t) with (String a (s +:+ t)). simpl. by rewrite IH.
Qed.

Lemma append_inj_r (s1 s2 t : string) : s1 +:+ t = s2 +:+ t -> s1 = s2.
Proof.
  revert s2. induction s1 as [|a s1 IH]; intros [|b s2] H.
  - done.
  - exfalso. apply (f_equal String.length) in H.
    rewrite !append_length in H. simpl in H. lia.
  - exfalso. apply (f_equal String.length) in H.
    rewrite !append_length in H. simpl in H. lia.
  - change (String a (s1 +:+ t) = String b (s2 +:+ t)) in H.
    injection H as -> H. by rewrite (IH _ H).
Qed.

(** X9: no two clusters share a kubeconfig secret.  Workload-cluster access
    for two clusters starts with the read of the same secret only when the
    two clusters have the same namespace and the same name. *)
Theorem kubeconfig_secret_per_cluster (w1 w2 : World) (c1 c2 : types.NamespacedName) :
  head (trace (kubeconfigForCluster w1 c1)) = head (trace (kubeconfigForCluster w2 c2)) ->
  c1 = c2.
Proof.
  destruct (kubeconfigForCluster_trace w1 c1) as (r1 & -> & _).
  destruct (kubeconfigForCluster_trace w2 c2) as (r2 & -> & _).
  simpl. unfold kubeconfigKey. intros [= Hns Hname].
  apply append_inj_r in Hname. destruct c1, c2. simpl in *. congruence.
Qed.

Lemma kubeconfig_secret_per_cluster_witness : Demo.demo = Demo.demo.
Proof.
  apply (kubeconfig_secret_per_cluster (Demo.world []) (Demo.world [Demo.cfgA])
           Demo.demo Demo.demo).
  reflexivity.
Defined.

(** X10: a control plane without the cluster-name label.  In indirect
    mode, when the label [cluster.x-k8s.io/cluster-name] is missing, the
    cluster name is the empty string: the call starts with the read of the
    secret named [-kubeconfig] in the control plane's namespace, and makes
    no other read of a secret. *)
Theorem missing_cluster_label_reads_bare_suffix {T} (IsZero : T -> bool) (sem : LoopVar)
    (w : World) (tcp : controlplanev1.TalosControlPlane T)
    (machine : clusterv1.Machine) (rest : list clusterv1.Machine) :
  IsZero (controlplanev1.InitConfig tcp) = false ->
  controlplanev1.Labels tcp !! "cluster.x-k8s.io/cluster-name" = None ->
  List.filter (fun ev => match ev with EvClientGet _ => true | _ => false end)
    (trace (talosconfigForMachines IsZero sem w tcp (machine :: rest)))
  = [EvClientGet {| types.Namespace := controlplanev1.Namespace tcp;
                    types.Name := "-kubeconfig" |}].
Proof.
  intros Hz Hlabel. rewrite talosconfigForMachines_indirect by done.
  unfold talosconfigFromWorkloadCluster. rewrite trace_bind, List.filter_app.
  assert (clusterKey tcp = {| types.Namespace := controlplanev1.Namespace tcp;
                              types.Name := "" |}) as ->.
  { unfold clusterKey. by rewrite Hlabel. }
  set (cluster := {| types.Namespace := _; types.Name := "" |}).
  assert (List.filter (fun ev => match ev with EvClientGet _ => true | _ => false end)
            (trace (kubeconfigForCluster w cluster))
          = [EvClientGet {| types.Namespace := controlplanev1.Namespace tcp;
                            types.Name := "-kubeconfig" |}]) as ->.
  { pose proof (kubeconfigForCluster_cases w cluster) as H. simpl in H.
    destruct (Client_Get w _) as [x|secret]; [by rewrite H|].
    destruct (RESTConfigFromKubeConfig w _) as [x|config]; [by rewrite H|].
    destruct (NewForConfig w _) as [x|]; by rewrite H. }
  destruct (outcome (kubeconfigForCluster w cluster)) as [k|e]; [|done].
  rewrite trace_bind, List.filter_app.
  assert (forall tr, Forall (fun ev => is_nodes_get ev = true \/ is_direct_call ev = true) tr ->
            List.filter (fun ev => match ev with EvClientGet _ => true | _ => false end) tr
            = []) as Hnone.
  { induction 1 as [|ev tr Hev _ IH]; [done|]. simpl. rewrite IH.
    by destruct ev, Hev. }
  rewrite !Hnone; [done| |].
  - destruct (outcome _) as [st|e]; [|constructor].
    rewrite talosclientNew_cases. cbn [trace fst]. constructor; [by right|constructor].
  - generalize (@nil string) (@None talosconfig.Config).
    induction (machine :: rest) as [|m ms IH]; intros acc t; simpl; [constructor|].
    destruct (clusterv1.NodeRef m) as [nodeRef|]; [|constructor].
    apply Forall_trace_bind.
    { destruct (Nodes_Get w _ _); (constructor; [by left|constructor]). }
    intros node. destruct (Nat.eqb _ 0); [constructor|].
    apply Forall_trace_bind; [|intros t'; apply IH].
    destruct t as [c|]; [constructor|].
    apply Forall_trace_bind; [|constructor].
    rewrite findTalosConfigWorkload_cases.
    eapply Forall_impl; [apply lookupWith_direct_calls|]. intros ev Hev. by right.
Qed.

Lemma missing_cluster_label_reads_bare_suffix_witness :
  List.filter (fun ev => match ev with EvClientGet _ => true | _ => false end)
    (trace (talosconfigForMachines Demo.IsZero PerLoop (Demo.world [])
              {| controlplanev1.Namespace := "ns1";
                 controlplanev1.Labels := ∅;
                 controlplanev1.InitConfig := true |} [Demo.m1]))
  = [EvClientGet {| types.Namespace := "ns1"; types.Name := "-kubeconfig" |}].
Proof.
  apply (missing_cluster_label_reads_bare_suffix Demo.IsZero PerLoop (Demo.world [])
           {| controlplanev1.Namespace := "ns1";
              controlplanev1.Labels := ∅;
              controlplanev1.InitConfig := true |} Demo.m1 []); reflexivity.
Defined.

(** ** The credential record *)

Lemma owned_false_refs (machineName : string) (cfg : cabptv1.TalosConfig) :
  owned machineName cfg = false <->
  forall ref, ref ∈ cabptv1.OwnerReferences cfg ->
              ~ (metav1.Kind ref = "Machine" /\ metav1.Name ref = machineName).
Proof.
  unfold owned. split.
  - intros Hf ref Hin Href.
    assert (refsMatch machineName (cabptv1.OwnerReferences cfg) = true); [|congruence].
    apply refsMatch_spec. by exists ref.
  - intros H. destruct (refsMatch _ _) eqn:Hm; [|done].
    apply refsMatch_spec in Hm as (ref & Hin & Href). by destruct (H ref Hin).
Qed.

Lemma none_owned_refs (machineName : string) (cfgs : list cabptv1.TalosConfig) :
  Forall (fun c => owned machineName c = false) cfgs ->
  forall cfg ref, cfg ∈ cfgs -> ref ∈ cabptv1.OwnerReferences cfg ->
                  ~ (metav1.Kind ref = "Machine" /\ metav1.Name ref = machineName).
Proof.
  intros Hall cfg ref Hcfg. rewrite Forall_forall in Hall.
  by apply owned_false_refs, Hall.
Qed.

Lemma workloadLoop_held_found (sem : LoopVar) (w : World) (k : kubernetesClient)
    (machines : list clusterv1.Machine) (addrList : list string)
    (c : talosconfig.Config) (x : string) :
  outcome (workloadLoop sem w k addrList (Some c) machines)
  <> Err (ErrTalosConfigNotFound x).
Proof.
  revert addrList. induction machines as [|machine rest IH]; intros addrList; simpl; [done|].
  destruct (clusterv1.NodeRef machine) as [nodeRef|]; [|done].
  rewrite outcome_bind. destruct (Nodes_Get w _ _) as [e|node]; simpl; [done|].
  destruct (Nat.eqb _ 0); [done|].
  rewrite bind_ret. apply IH.
Qed.

(** X11: the credential-not-found error names the first machine and means
    that none of the records listed in its namespace is owned by it.  In
    either mode, when a call fails with that error, the list of the first
    machine's namespace was read, and no record of it has an owner
    reference of kind [Machine] with the first machine's name. *)
Theorem credential_not_found_means_none_owned {T} (IsZero : T -> bool) (sem : LoopVar)
    (w : World) (tcp : controlplanev1.TalosControlPlane T)
    (machines : list clusterv1.Machine) (x : string) :
  outcome (talosconfigForMachines IsZero sem w tcp machines)
    = Err (ErrTalosConfigNotFound x) ->
  exists machine rest cfgs,
    machines = machine :: rest
    /\ x = clusterv1.Name_ machine
    /\ Client_List w (clusterv1.Namespace machine) = inr cfgs
    /\ forall cfg ref,
         cfg ∈ cfgs -> ref ∈ cabptv1.OwnerReferences cfg ->
         ~ (metav1.Kind ref = "Machine" /\ metav1.Name ref = clusterv1.Name_ machine).
Proof.
  intros Hr. destruct machines as [|machine rest]; [discriminate|].
  exists machine, rest.
  destruct (IsZero (controlplanev1.InitConfig tcp)) eqn:Hz.
  - rewrite talosconfigForMachines_direct in Hr by done.
    destruct (machineIPs machine) as [|a l] eqn:Hips.
    { unfold directPath in Hr. rewrite machinesLoop_first, Hips in Hr. discriminate. }
    rewrite directPath_first_has_address in Hr by (by rewrite Hips).
    rewrite outcome_bind, findTalosConfig_cases in Hr.
    destruct (outcome (lookupWith w machine _)) as [c|e] eqn:Hl.
    { by apply talosclientNew_errors in Hr as [? ?]. }
    injection Hr as ->.
    apply lookupWith_errors in Hl as [([= ->] & cfgs & Hlist & Hscan)|[? ?]]; [|done].
    exists cfgs. repeat split; [done|].
    by apply none_owned_refs, scanBreakOuter_None.
  - rewrite talosconfigForMachines_indirect in Hr by done.
    unfold talosconfigFromWorkloadCluster in Hr.
    destruct (kubeconfigForCluster w (clusterKey tcp)) as [tr0 [k|e]] eqn:Hk.
    2:{ rewrite bind_Err in Hr. injection Hr as ->.
        pose proof (kubeconfigForCluster_errors w (clusterKey tcp)
                      (ErrTalosConfigNotFound x)) as He.
        rewrite Hk in He. by destruct (He eq_refl). }
    rewrite outcome_bind_Ok, outcome_bind in Hr.
    destruct (outcome (workloadLoop sem w k [] None (machine :: rest))) as [st|e] eqn:Hloop.
    { by apply talosclientNew_errors in Hr as [? ?]. }
    injection Hr as ->. simpl in Hloop.
    destruct (clusterv1.NodeRef machine) as [nodeRef|]; [|discriminate].
    rewrite outcome_bind in Hloop.
    destruct (Nodes_Get w _ _) as [e|node]; simpl in Hloop; [discriminate|].
    destruct (Nat.eqb _ 0); [discriminate|].
    rewrite outcome_bind, outcome_bind, findTalosConfigWorkload_cases in Hloop.
    destruct (outcome (lookupWith w machine _)) as [c|e] eqn:Hl; simpl in Hloop.
    { by apply workloadLoop_held_found in Hloop. }
    injection Hloop as ->.
    apply lookupWith_errors in Hl as [([= ->] & cfgs & Hlist & Hscan)|[? ?]]; [|done].
    exists cfgs. repeat split; [done|].
    by apply none_owned_refs, (scanBreakInner_None sem).
Qed.

Lemma credential_not_found_means_none_owned_witness :
  exists machine rest cfgs,
    [Demo.m2; Demo.m1] = machine :: rest
    /\ "m2" = clusterv1.Name_ machine
    /\ Client_List (Demo.world [Demo.cfgA; Demo.cfgC]) (clusterv1.Namespace machine)
       = inr cfgs
    /\ forall cfg ref,
         cfg ∈ cfgs -> ref ∈ cabptv1.OwnerReferences cfg ->
         ~ (metav1.Kind ref = "Machine" /\ metav1.Name ref = clusterv1.Name_ machine).
Proof.
  apply (credential_not_found_means_none_owned Demo.IsZero PerLoop
           (Demo.world [Demo.cfgA; Demo.cfgC]) (Demo.tcp true) [Demo.m2; Demo.m1] "m2").
  vm_compute. reflexivity.
Defined.

(** X12: in direct mode the credential of a successful call is that of the
    first record owned by the first machine.  The list of the first
    machine's namespace splits into records without an owner reference of
    kind [Machine] and the machine's name, then a record with one, whose
    talosconfig is the one parsed into the client's credential, then the
    rest, which is not looked at. *)
Theorem direct_credential_is_first_owned {T} (IsZero : T -> bool) (sem : LoopVar)
    (w : World) (tcp : controlplanev1.TalosControlPlane T)
    (machine : clusterv1.Machine) (rest : list clusterv1.Machine)
    (tr : list Event) (client : talosclient.Client) :
  IsZero (controlplanev1.InitConfig tcp) = true ->
  talosconfigForMachines IsZero sem w tcp (machine :: rest) = (tr, Ok client) ->
  exists pre found post t,
    Client_List w (clusterv1.Namespace machine) = inr (pre ++ found :: post)
    /\ (forall cfg ref,
          cfg ∈ pre -> ref ∈ cabptv1.OwnerReferences cfg ->
          ~ (metav1.Kind ref = "Machine" /\ metav1.Name ref = clusterv1.Name_ machine))
    /\ (exists ref,
          ref ∈ cabptv1.OwnerReferences found
          /\ metav1.Kind ref = "Machine" /\ metav1.Name ref = clusterv1.Name_ machine)
    /\ FromString w (cabptv1.TalosConfig_ found) = inr t
    /\ talosclient.Config client = Some t.
Proof.
  intros Hz Hr. rewrite talosconfigForMachines_direct in Hr by done.
  apply directPath_success in Hr as (cfgs & found & t & _ & Hlist & Hscan & Hparse & ->).
  apply scanBreakOuter_Some in Hscan as (pre & post & -> & Hfound & Hpre).
  exists pre, found, post, t. split; [done|]. split; [by apply none_owned_refs|].
  split; [by apply refsMatch_spec|]. done.
Qed.

Lemma direct_credential_is_first_owned_witness :
  exists pre found post t,
    Client_List (Demo.world [Demo.cfgC; Demo.cfgB; Demo.cfgA]) "ns1"
      = inr (pre ++ found :: post)
    /\ (forall cfg ref,
          cfg ∈ pre -> ref ∈ cabptv1.OwnerReferences cfg ->
          ~ (metav1.Kind ref = "Machine" /\ metav1.Name ref = "m1"))
    /\ (exists ref,
          ref ∈ cabptv1.OwnerReferences found
          /\ metav1.Kind ref = "Machine" /\ metav1.Name ref = "m1")
    /\ FromString (Demo.world [Demo.cfgC; Demo.cfgB; Demo.cfgA])
         (cabptv1.TalosConfig_ found) = inr t
    /\ Some {| talosconfig.Context := "context: b" |} = Some t.
Proof.
  refine (direct_credential_is_first_owned Demo.IsZero PerLoop
            (Demo.world [Demo.cfgC; Demo.cfgB; Demo.cfgA]) (Demo.tcp false)
            Demo.m1 [Demo.m2] _
            {| talosclient.Endpoints := ["10.0.0.1"; "10.0.0.2"; "192.0.2.2"];
               talosclient.Config := Some {| talosconfig.Context := "context: b" |} |}
            _ _).
  - reflexivity.
  - vm_compute. reflexivity.
Defined.

Lemma scanBreakOuter_head (machineName : string) (cfgs : list cabptv1.TalosConfig) :
  scanBreakOuter machineName cfgs = head (List.filter (owned machineName) cfgs).
Proof.
  induction cfgs as [|cfg rest IH]; simpl; [done|].
  fold (owned machineName cfg). by destruct (owned machineName cfg).
Qed.

(** X13: the record the indirect lookup ends with.  Its scan visits every
    record.  With one loop variable per iteration it ends with the last
    record owned by the machine; with one variable for the whole loop it
    ends with the last record of the list, as soon as some record is owned
    by the machine; in both cases with none when no record is owned. *)
Theorem indirect_scan_result (sem : LoopVar) (machineName : string)
    (cfgs : list cabptv1.TalosConfig) :
  scanBreakInner sem machineName cfgs None =
    match sem with
    | PerIteration =>
        last (List.filter
                (fun cfg => refsMatch machineName (cabptv1.OwnerReferences cfg)) cfgs)
    | PerLoop =>
        if existsb (fun cfg => refsMatch machineName (cabptv1.OwnerReferences cfg)) cfgs
        then last cfgs else None
    end.
Proof.
  destruct sem.
  - apply scanBreakInner_PerLoop.
  - rewrite scanBreakInner_PerIteration. fold (owned machineName).
    by destruct (last _).
Qed.

(** X14: when exactly one listed record is owned by the machine, the
    indirect lookup with one loop variable per iteration does what the
    direct lookup does; with one variable for the whole loop it does so
    when that record is the last of the list. *)
Theorem lookups_agree_on_unique_owner (w : World) (machine : clusterv1.Machine)
    (cfgs : list cabptv1.TalosConfig) (c : cabptv1.TalosConfig) :
  Client_List w (clusterv1.Namespace machine) = inr cfgs ->
  List.filter (fun cfg => refsMatch (clusterv1.Name_ machine) (cabptv1.OwnerReferences cfg))
    cfgs = [c] ->
  findTalosConfigWorkload PerIteration w machine = findTalosConfig w machine
  /\ (last cfgs = Some c ->
      findTalosConfigWorkload PerLoop w machine = findTalosConfig w machine).
Proof.
  intros Hlist Hone. fold (owned (clusterv1.Name_ machine)) in Hone.
  rewrite findTalosConfig_cases, !findTalosConfigWorkload_cases. unfold lookupWith.
  rewrite Hlist, scanBreakOuter_head, scanBreakInner_PerIteration, scanBreakInner_PerLoop.
  rewrite Hone. simpl. split; [done|]. intros ->.
  assert (existsb (owned (clusterv1.Name_ machine)) cfgs = true) as ->; [|done].
  apply existsb_exists. exists c. apply filter_In. rewrite Hone. by left.
Qed.

Lemma lookups_agree_on_unique_owner_witness :
  findTalosConfigWorkload PerIteration (Demo.world [Demo.cfgC; Demo.cfgA]) Demo.m1
  = findTalosConfig (Demo.world [Demo.cfgC; Demo.cfgA]) Demo.m1
  /\ findTalosConfigWorkload PerLoop (Demo.world [Demo.cfgC; Demo.cfgA]) Demo.m1
     = findTalosConfig (Demo.world [Demo.cfgC; Demo.cfgA]) Demo.m1.
Proof.
  destruct (lookups_agree_on_unique_owner (Demo.world [Demo.cfgC; Demo.cfgA]) Demo.m1
              [Demo.cfgC; Demo.cfgA] Demo.cfgA eq_refl eq_refl) as [H1 H2].
  split; [exact H1|exact (H2 eq_refl)].
Defined.

(** ** Endpoints are not deduplicated *)

Lemma length_concat_machineIPs (machines : list clusterv1.Machine) :
  length (concat (map machineIPs machines)) =
    list_sum (map (fun m => length (List.filter isMachineIP (clusterv1.Addresses m)))
                  machines).
Proof.
  induction machines as [|m ms IH]; simpl; [done|].
  rewrite length_app, IH. unfold machineIPs. by rewrite length_map.
Qed.

(** X15: the endpoints keep every address record.  In direct mode the
    client of a successful call has as many endpoints as the machines have
    address records of type external or internal IP, all machines taken
    together: an address reported twice, by one machine or by two, is an
    endpoint twice. *)
Theorem direct_endpoints_not_deduplicated {T} (IsZero : T -> bool) (sem : LoopVar)
    (w : World) (tcp : controlplanev1.TalosControlPlane T)
    (machines : list clusterv1.Machine) (tr : list Event) (client : talosclient.Client) :
  IsZero (controlplanev1.InitConfig tcp) = true ->
  talosconfigForMachines IsZero sem w tcp machines = (tr, Ok client) ->
  length (talosclient.Endpoints client) =
    list_sum (map (fun m => length (List.filter isMachineIP (clusterv1.Addresses m)))
                  machines).
Proof.
  intros Hz Hr. destruct machines as [|machine rest]; [discriminate|].
  rewrite talosconfigForMachines_direct in Hr by done.
  apply directPath_success in Hr as (cfgs & found & t & _ & _ & _ & _ & ->).
  apply length_concat_machineIPs.
Qed.

Lemma direct_endpoints_not_deduplicated_witness :
  length ["10.0.0.1"; "10.0.0.1"; "10.0.0.2"; "192.0.2.2"] =
    list_sum (map (fun m => length (List.filter isMachineIP (clusterv1.Addresses m)))
                  [Demo.m1; Demo.m1; Demo.m2]).
Proof.
  refine (direct_endpoints_not_deduplicated Demo.IsZero PerLoop (Demo.world [Demo.cfgA])
            (Demo.tcp false) [Demo.m1; Demo.m1; Demo.m2] _
            {| talosclient.Endpoints := ["10.0.0.1"; "10.0.0.1"; "10.0.0.2"; "192.0.2.2"];
               talosclient.Config := Some {| talosconfig.Context := "context: a" |} |}
            _ _).
  - reflexivity.
  - vm_compute. reflexivity.
Defined.

(** ** The dialer of workload-cluster access *)

(** X16: a dialer is made exactly when the secret was read and its
    kubeconfig parsed, and then once.  When the read or the parse fails no
    dialer exists; when the construction of the client fails afterwards,
    the dialer has been made all the same. *)
Theorem dialer_made_iff_parsed (w : World) (cluster : types.NamespacedName) :
  let key := {| types.Namespace := types.Namespace cluster;
                types.Name := types.Name cluster +:+ "-kubeconfig" |} in
  ((exists secret config,
      Client_Get w key = inr secret
      /\ RESTConfigFromKubeConfig w (default [] (corev1.Data secret !! "value"))
         = inr config)
   <-> List.filter (fun ev => match ev with EvNewDialer _ => true | _ => false end)
         (trace (kubeconfigForCluster w cluster)) = [EvNewDialer newDialer])
  /\ ((forall secret config,
         Client_Get w key = inr secret ->
         RESTConfigFromKubeConfig w (default [] (corev1.Data secret !! "value"))
         <> inr config)
      <-> List.filter (fun ev => match ev with EvNewDialer _ => true | _ => false end)
            (trace (kubeconfigForCluster w cluster)) = []).
Proof.
  intros key. pose proof (kubeconfigForCluster_cases w cluster) as H. simpl in H.
  change (kubeconfigKey cluster) with key in H. unfold mapIndex in H.
  destruct (Client_Get w key) as [x|secret].
  { rewrite H. simpl. split; split; try done.
    intros (? & ? & ? & _). discriminate. }
  destruct (RESTConfigFromKubeConfig w _) as [x|config] eqn:Hparse.
  { rewrite H. simpl. split; split; try done.
    - intros (s & c & [= <-] & Hc). congruence.
    - intros _ s c [= <-]. congruence. }
  assert (List.filter (fun ev => match ev with EvNewDialer _ => true | _ => false end)
            (trace (kubeconfigForCluster w cluster)) = [EvNewDialer newDialer]) as ->.
  { by destruct (NewForConfig w _); rewrite H. }
  split; split; try done.
  - intros _. by exists secret, config.
  - intros Hno. by destruct (Hno secret config).
Qed.

Lemma dialer_made_iff_parsed_witness :
  List.filter (fun ev => match ev with EvNewDialer _ => true | _ => false end)
    (trace (kubeconfigForCluster (Demo.world []) Demo.demo)) = [EvNewDialer newDialer]
  /\ List.filter (fun ev => match ev with EvNewDialer _ => true | _ => false end)
       (trace (kubeconfigForCluster (Demo.world []) Demo.nokey)) = [].
Proof.
  split.
  - apply (proj1 (dialer_made_iff_parsed (Demo.world []) Demo.demo)).
    eexists _, _. split; vm_compute; reflexivity.
  - apply (proj2 (dialer_made_iff_parsed (Demo.world []) Demo.nokey)).
    intros secret config Hget. vm_compute in Hget. injection Hget as <-.
    vm_compute. discriminate.
Defined.

(** X17: closing the client of a workload-cluster access closes the dialer
    its connections go through.  For a client returned by
    [kubeconfigForCluster], [Close] makes one call, [CloseAll] on the
    dialer that was made during the access and installed as the dial
    function of the client's configuration, and returns no error. *)
Theorem Close_closes_installed_dialer (w : World) (cluster : types.NamespacedName)
    (tr : list Event) (k : kubernetesClient) :
  kubeconfigForCluster w cluster = (tr, Ok k) ->
  exists d,
    Close k = ([EvCloseAll d], Ok tt)
    /\ rest.Dial (kubernetes.config (Clientset k)) = Some d
    /\ EvNewDialer d ∈ tr
    /\ (kubeconfigForCluster w cluster ;;; Close k)
       = (tr ++ [EvCloseAll d], Ok tt).
Proof.
  intros Hk. pose proof (kubeconfigForCluster_cases w cluster) as H. simpl in H.
  destruct (Client_Get w _) as [x|secret]; [congruence|].
  destruct (RESTConfigFromKubeConfig w _) as [x|config]; [congruence|].
  destruct (NewForConfig w _) as [x|]; [congruence|].
  rewrite H in Hk. injection Hk as <- <-. exists newDialer.
  split; [done|]. split; [done|]. split.
  - do 2 right. left.
  - rewrite H. by rewrite bind_Ok.
Qed.

Lemma Close_closes_installed_dialer_witness :
  exists d,
    Close {| Clientset := {| kubernetes.config :=
                               {| rest.Host := "https://demo:6443";
                                  rest.Dial := Some newDialer |} |};
             dialer := newDialer |} = ([EvCloseAll d], Ok tt)
    /\ Some newDialer = Some d.
Proof.
  destruct (Close_closes_installed_dialer (Demo.world []) Demo.demo _ _ eq_refl)
    as (d & H1 & H2 & _).
  exists d. split; [exact H1|exact H2].
Defined.

(** X18: in indirect mode workload-cluster access comes before any machine
    is looked at.  The calls of an indirect-mode call on a non-empty list
    start with those of the access to the cluster; when the access fails,
    they are all the calls made and the access's error is the result,
    whatever the machines are, joined or not. *)
Theorem access_failure_precedes_machines (sem : LoopVar) (w : World)
    (cluster : types.NamespacedName) (machine : clusterv1.Machine)
    (rest : list clusterv1.Machine) :
  trace (kubeconfigForCluster w cluster)
    `prefix_of` trace (talosconfigFromWorkloadCluster sem w cluster (machine :: rest))
  /\ (forall tr e,
        kubeconfigForCluster w cluster = (tr, Err e) ->
        talosconfigFromWorkloadCluster sem w cluster (machine :: rest) = (tr, Err e)).
Proof.
  unfold talosconfigFromWorkloadCluster. split.
  - rewrite trace_bind. by eexists.
  - intros tr e ->. by rewrite bind_Err.
Qed.

Lemma access_failure_precedes_machines_witness :
  talosconfigFromWorkloadCluster PerLoop (Demo.world []) Demo.nokey [Demo.m4; Demo.m1] =
    ([EvClientGet {| types.Namespace := "ns1"; types.Name := "nokey-kubeconfig" |};
      EvRESTConfigFromKubeConfig []],
     Err (ErrExternal
            (OtherError "invalid configuration: no configuration has been provided"))).
Proof.
  apply (proj2 (access_failure_precedes_machines PerLoop (Demo.world []) Demo.nokey
                  Demo.m4 [Demo.m1])).
  vm_compute. reflexivity.
Defined.
